(** * Smart Cursor Undo: a shallow embedding of [smartCursorUndo.ts]

    The extension keeps, per document, a window of the last two selection
    snapshots, an undo stack and a redo stack of selection lists.  This file
    embeds the functions of [src/smartCursorUndo.ts] and proves the
    properties stated about them.

    JavaScript numbers are integers here ([Z]); arrays are lists in array
    order, so [push] appends at the end, [pop] removes the last element and
    [shift] removes the first; the table [documentsHistory] is a [gmap]
    keyed by the document id; an access [a[i]] past the end of an array
    yields [undefined], and reading a property of [undefined] throws, which
    the embedding renders as [None]. *)

From Stdlib Require Import ZArith Lia.
From stdpp Require Import base option list gmap strings pretty.

(** ** The part of the VS Code API the extension calls

    [Position], [Range], [Selection], [TextDocument] and [TextEditor] belong
    to the editor, not to the extension; the definitions below follow the
    behaviour the API documents for them.  [new Range(a, b)] orders its two
    positions.  A [Selection] is the [Range] built from its [anchor] and its
    [active] position, so its [start] and [end] are the lesser and the
    greater of the two; [isEmpty], [isEqual] and [contains] are the
    methods of [Range], which [Selection] does not override: [isEqual]
    compares [start] and [end].  [validateRange] clamps both ends of a
    range to the document. *)
Module vscode.

Record Position := mkPosition { line : Z; character : Z }.

#[global] Instance Position_eq_dec : EqDecision Position.
Proof. solve_decision. Defined.

Definition Position_isEqual (p q : Position) : bool :=
  (line p =? line q)%Z && (character p =? character q)%Z.

Definition Position_isBefore (p q : Position) : bool :=
  if (line p <? line q)%Z then true
  else if (line q <? line p)%Z then false
  else (character p <? character q)%Z.

(** [position.with(line)] keeps the character. *)
Definition Position_with (p : Position) (newLine : Z) : Position :=
  {| line := newLine; character := character p |}.

Record Range := mkRange { range_start : Position; range_end : Position }.

(** [new Range(a, b)] orders its two arguments. *)
Definition new_Range (a b : Position) : Range :=
  if Position_isBefore a b then mkRange a b else mkRange b a.

Definition Range_isEmpty (r : Range) : bool :=
  Position_isEqual (range_start r) (range_end r).

Definition Range_isEqual (r1 r2 : Range) : bool :=
  Position_isEqual (range_start r1) (range_start r2)
  && Position_isEqual (range_end r1) (range_end r2).

Definition Range_contains (r : Range) (p : Position) : bool :=
  if Position_isBefore p (range_start r) then false
  else if Position_isBefore (range_end r) p then false
  else true.

Record Selection := mkSelection { anchor : Position; active : Position }.

#[global] Instance Selection_eq_dec : EqDecision Selection.
Proof. solve_decision. Defined.

(** The [Range] a selection is: [super(anchor, active)]. *)
Definition Selection_range (s : Selection) : Range :=
  new_Range (anchor s) (active s).

Definition Selection_isEmpty (s : Selection) : bool :=
  Range_isEmpty (Selection_range s).

Definition Selection_isEqual (s1 s2 : Selection) : bool :=
  Range_isEqual (Selection_range s1) (Selection_range s2).

(** A document: its uri, its edit version and the length of each line. *)
Record TextDocument := mkTextDocument {
  uri : string;
  version : Z;
  lineLengths : list Z
}.

Definition validatePosition (d : TextDocument) (p : Position) : Position :=
  match lineLengths d with
  | [] => mkPosition 0 0
  | _ =>
    if (line p <? 0)%Z then mkPosition 0 0
    else
      match lineLengths d !! Z.to_nat (line p) with
      | None =>
        let l := (length (lineLengths d) - 1)%nat in
        mkPosition (Z.of_nat l) (default 0%Z (lineLengths d !! l))
      | Some maxCharacter =>
        if (character p <? 0)%Z then mkPosition (line p) 0
        else if (maxCharacter <? character p)%Z then mkPosition (line p) maxCharacter
        else p
      end
  end.

(** The range itself when both ends are already valid. *)
Definition validateRange (d : TextDocument) (r : Range) : Range :=
  let s := validatePosition d (range_start r) in
  let e := validatePosition d (range_end r) in
  if decide (s = range_start r ∧ e = range_end r) then r else new_Range s e.

Inductive TextEditorRevealType := Default | InCenter.

(** An editor: its document, its live selections, its visible ranges, and
    the [revealRange] commands it has received, oldest first. *)
Record TextEditor := mkTextEditor {
  document : TextDocument;
  selections : list Selection;
  visibleRanges : list Range;
  revealed : list (Range * TextEditorRevealType)
}.

(** [editor.selection] is the first of [editor.selections]. *)
Definition selection (e : TextEditor) : option Selection := selections e !! 0%nat.

(** [editor.selections = sels]. *)
Definition set_selections (e : TextEditor) (sels : list Selection) : TextEditor :=
  mkTextEditor (document e) sels (visibleRanges e) (revealed e).

Definition revealRange (e : TextEditor) (r : Range) (t : TextEditorRevealType) : TextEditor :=
  mkTextEditor (document e) (selections e) (visibleRanges e) (revealed e ++ [(r, t)]).

Record TextEditorSelectionChangeEvent := mkEvent {
  textEditor : TextEditor;
  event_selections : list Selection
}.

End vscode.

(** ** The types of [smartCursorUndo.ts] *)

Record SelectionsHistory := mkSelectionsHistory {
  previousOfLastSelections : list vscode.Selection;
  previousOfLastDocumentVersion : Z;
  lastSelections : list vscode.Selection;
  lastDocumentVersion : Z
}.

Record UndoItem := mkUndoItem { selections : list vscode.Selection }.

#[global] Instance UndoItem_eq_dec : EqDecision UndoItem.
Proof. solve_decision. Defined.

Record DocumentHistory := mkDocumentHistory {
  selectionsHistory : SelectionsHistory;
  undoStack : list UndoItem;
  redoStack : list UndoItem;
  lastSelectionsTimestamp : Z;
  undoRedoCounter : Z
}.

Definition MAX_STACK_SIZE : nat := 999.

Definition FOUR_SECONDS : Z := 4 * 1000.

Definition NEARLY_VISIBLE_LINES : Z := 15.

(** ** Loops that return early

    [for (let i = start; i < start + n; i++) { if (body i) return true; }]:
    [Some true] when some iteration returned, [Some false] when the loop ran
    to its end, [None] when an iteration threw. *)
Fixpoint for_from (n i : nat) (body : nat → option bool) : option bool :=
  match n with
  | O => Some false
  | S k =>
    match body i with
    | None => None
    | Some true => Some true
    | Some false => for_from k (S i) body
    end
  end.

(** ** The significance classifier *)

(** The body of the loop of rules #3 and #4. *)
Definition emptinessFlipped (sels lastSels : list vscode.Selection) (i : nat) : option bool :=
  s ← sels !! i;
  c1 ← (if negb (vscode.Selection_isEmpty s)
        then l ← lastSels !! i; Some (vscode.Selection_isEmpty l)
        else Some false);
  if c1 : bool then Some true
  else
    if vscode.Selection_isEmpty s
    then l ← lastSels !! i; Some (negb (vscode.Selection_isEmpty l))
    else Some false.

(** The body of the loop of rule #5. *)
Definition bothEndsMoved (sels lastSels : list vscode.Selection) (i : nat) : option bool :=
  s ← sels !! i;
  if negb (vscode.Selection_isEmpty s)
  then
    l ← lastSels !! i;
    if negb (vscode.Position_isEqual (vscode.anchor s) (vscode.anchor l))
    then Some (negb (vscode.Position_isEqual (vscode.active s) (vscode.active l)))
    else Some false
  else Some false.

(** The body of the loop of rule #6. *)
Definition linesJumped (prevSels lastSels sels : list vscode.Selection) (i : nat) : option bool :=
  l ← lastSels !! i;
  p ← prevSels !! i;
  let diff1Lines := Z.abs (vscode.line (vscode.active l) - vscode.line (vscode.active p)) in
  s ← sels !! i;
  let diff2Lines := Z.abs (vscode.line (vscode.active s) - vscode.line (vscode.active l)) in
  Some ((diff1Lines * 5 <? diff2Lines)%Z || (diff1Lines >? diff2Lines * 5)%Z).

Definition isLastSelectionsChangeSignificant
    (w : SelectionsHistory) (sels : list vscode.Selection) (documentVersion : Z)
    : option bool :=
  let prevSels := previousOfLastSelections w in
  let lastSels := lastSelections w in
  (* Rule #1 *)
  if negb (length sels =? length lastSels)%nat then Some true
  (* Rule #2 *)
  else if negb (length lastSels =? length prevSels)%nat then Some true
  else
    (* Rules #3 and #4 *)
    r34 ← for_from (length sels) 0 (emptinessFlipped sels lastSels);
    if r34 : bool then Some true
    else
      (* Rule #5 *)
      r5 ← for_from (length sels) 0 (bothEndsMoved sels lastSels);
      if r5 : bool then Some true
      else
        (* Rule #6 *)
        r6 ← for_from (length lastSels) 0 (linesJumped prevSels lastSels sels);
        if r6 : bool then Some true
        (* Rule #7 *)
        else if (previousOfLastDocumentVersion w =? lastDocumentVersion w)%Z
                && negb (lastDocumentVersion w =? documentVersion)%Z
        then Some true
        (* Rule #8 *)
        else if negb (previousOfLastDocumentVersion w =? lastDocumentVersion w)%Z
                && (lastDocumentVersion w =? documentVersion)%Z
        then Some true
        (* Change not significant *)
        else Some false.

(** ** The history manager *)

(** Assignments to the fields of a [DocumentHistory]. *)
Definition set_selectionsHistory (history : DocumentHistory) (w : SelectionsHistory) :=
  mkDocumentHistory w (undoStack history) (redoStack history)
    (lastSelectionsTimestamp history) (undoRedoCounter history).

Definition set_undoStack (history : DocumentHistory) (stack : list UndoItem) :=
  mkDocumentHistory (selectionsHistory history) stack (redoStack history)
    (lastSelectionsTimestamp history) (undoRedoCounter history).

Definition set_redoStack (history : DocumentHistory) (stack : list UndoItem) :=
  mkDocumentHistory (selectionsHistory history) (undoStack history) stack
    (lastSelectionsTimestamp history) (undoRedoCounter history).

Definition set_lastSelectionsTimestamp (history : DocumentHistory) (t : Z) :=
  mkDocumentHistory (selectionsHistory history) (undoStack history) (redoStack history)
    t (undoRedoCounter history).

Definition set_undoRedoCounter (history : DocumentHistory) (c : Z) :=
  mkDocumentHistory (selectionsHistory history) (undoStack history) (redoStack history)
    (lastSelectionsTimestamp history) c.

Definition updateHistoryWithNewSelections
    (history : DocumentHistory) (sels : list vscode.Selection) (version : Z)
    : DocumentHistory :=
  set_selectionsHistory history
    {| previousOfLastSelections := lastSelections (selectionsHistory history);
       previousOfLastDocumentVersion := lastDocumentVersion (selectionsHistory history);
       lastSelections := sels;
       lastDocumentVersion := version |}.

(** The loop of [areSelectionsEqual], from index [i], with [n] rounds left. *)
Fixpoint selectionsEqualFrom (n i : nat) (selections1 selections2 : list vscode.Selection)
    : option bool :=
  match n with
  | O => Some true
  | S k =>
    s1 ← selections1 !! i;
    s2 ← selections2 !! i;
    if negb (vscode.Selection_isEqual s1 s2) then Some false
    else selectionsEqualFrom k (S i) selections1 selections2
  end.

Definition areSelectionsEqual (selections1 selections2 : list vscode.Selection) : option bool :=
  if negb (length selections1 =? length selections2)%nat then Some false
  else selectionsEqualFrom (length selections1) 0 selections1 selections2.

(** [!lastItem || !areSelectionsEqual(sels, lastItem.selections)]. *)
Definition shouldPush (stack : list UndoItem) (sels : list vscode.Selection) : option bool :=
  match last stack with
  | None => Some true
  | Some lastItem => negb <$> areSelectionsEqual sels (selections lastItem)
  end.

Definition pushIntoUndoStack (history : DocumentHistory) (sels : list vscode.Selection)
    : option DocumentHistory :=
  b ← shouldPush (undoStack history) sels;
  Some (if b : bool
        then set_undoStack history (undoStack history ++ [mkUndoItem sels])
        else history).

Definition pushIntoRedoStack (history : DocumentHistory) (sels : list vscode.Selection)
    : option DocumentHistory :=
  b ← shouldPush (redoStack history) sels;
  Some (if b : bool
        then set_redoStack history (redoStack history ++ [mkUndoItem sels])
        else history).

Definition getDocumentId (d : vscode.TextDocument) : string := vscode.uri d.

Definition getInitialSelectionsHistory (editor : vscode.TextEditor) : SelectionsHistory :=
  {| previousOfLastSelections := [];
     previousOfLastDocumentVersion := vscode.version (vscode.document editor);
     lastSelections := vscode.selections editor;
     lastDocumentVersion := vscode.version (vscode.document editor) |}.

(** [now] is the value of [new Date().getTime()]. *)
Definition getInitialDocumentHistory (editor : vscode.TextEditor) (now : Z) : DocumentHistory :=
  {| selectionsHistory := getInitialSelectionsHistory editor;
     undoStack := [];
     redoStack := [];
     lastSelectionsTimestamp := now;
     undoRedoCounter := 0 |}.

(** ** Revealing the active cursor *)

Definition getRangeForActiveCursor (activePosition : vscode.Position) : vscode.Range :=
  vscode.new_Range activePosition activePosition.

Definition isCursorNearlyVisibleInRange
    (visibleRange : vscode.Range) (editor : vscode.TextEditor) : option bool :=
  let nearlyVisibleStart :=
    vscode.Position_with (vscode.range_start visibleRange)
      (Z.max (vscode.line (vscode.range_start visibleRange) - NEARLY_VISIBLE_LINES) 0) in
  let nearlyVisibleEnd :=
    vscode.Position_with (vscode.range_end visibleRange)
      (vscode.line (vscode.range_end visibleRange) + NEARLY_VISIBLE_LINES) in
  let nearlyVisibleRange :=
    vscode.validateRange (vscode.document editor)
      (vscode.new_Range nearlyVisibleStart nearlyVisibleEnd) in
  sel ← vscode.selection editor;
  Some (vscode.Range_contains nearlyVisibleRange (vscode.active sel)).

(** [array.some(callback)]: [None] when a call of the callback threw. *)
Fixpoint some {A} (callback : A → option bool) (l : list A) : option bool :=
  match l with
  | [] => Some false
  | x :: rest =>
    b ← callback x;
    if b : bool then Some true else some callback rest
  end.

(** The editor after the call, or [None] when the call threw. *)
Definition revealActiveCursor (editor : vscode.TextEditor) : option vscode.TextEditor :=
  visible ← some (λ range, sel ← vscode.selection editor;
                           Some (vscode.Range_contains range (vscode.active sel)))
                 (vscode.visibleRanges editor);
  if visible : bool then Some editor
  else
    nearly ← some (λ range, isCursorNearlyVisibleInRange range editor)
                  (vscode.visibleRanges editor);
    sel ← vscode.selection editor;
    if nearly : bool
    then Some (vscode.revealRange editor
                 (getRangeForActiveCursor (vscode.active sel)) vscode.Default)
    else Some (vscode.revealRange editor
                 (getRangeForActiveCursor (vscode.active sel)) vscode.InCenter).

(** ** The log of a stack *)

(** [array.join(separator)]. *)
Fixpoint join (separator : string) (l : list string) : string :=
  match l with
  | [] => ""
  | [x] => x
  | x :: rest => x +:+ separator +:+ join separator rest
  end.

(** The template [`(${active.line}, ${active.character})`]. *)
Definition coordinate (p : vscode.Position) : string :=
  "(" +:+ pretty (vscode.line p) +:+ ", " +:+ pretty (vscode.character p) +:+ ")".

(** The callback of [stack.map]: [None] when [item.selections[0]] is
    [undefined]. *)
Definition stackText (item : UndoItem) : option string :=
  if (length (selections item) <=? 1)%nat
  then
    sel ← selections item !! 0;
    Some (coordinate (vscode.active sel))
  else
    let coordinates := map (λ sel, coordinate (vscode.active sel)) (selections item) in
    Some ("[" +:+ join ", " coordinates +:+ "]").

Definition getStackLog (stack : list UndoItem) : option string :=
  stackTexts ← mapM stackText stack;
  Some (join " => " stackTexts).

(** ** The commands and the listeners

    A call ends by returning or by throwing; what it has written to
    [documentsHistory] and to the editor before a throw stays written. *)

Inductive Completion := Returned | Thrown.

Record Outcome := mkOutcome {
  completion : Completion;
  documentsHistory : gmap string DocumentHistory;
  activeTextEditor : option vscode.TextEditor
}.

Definition initiateUndoHistory
    (editor : option vscode.TextEditor) (now : Z)
    (table : gmap string DocumentHistory) : gmap string DocumentHistory :=
  match editor with
  | None => table
  | Some editor =>
    let documentId := getDocumentId (vscode.document editor) in
    match table !! documentId with
    | None => <[documentId := getInitialDocumentHistory editor now]> table
    | Some _ => table
    end
  end.

Definition cursorUndo
    (editor : option vscode.TextEditor) (now : Z)
    (table : gmap string DocumentHistory) : Outcome :=
  match editor with
  | None => mkOutcome Returned table None
  | Some editor =>
    let documentId := getDocumentId (vscode.document editor) in
    let table :=
      match table !! documentId with
      | None => initiateUndoHistory (Some editor) now table
      | Some _ => table
      end in
    match table !! documentId with
    | None => mkOutcome Thrown table (Some editor)
    | Some history =>
      match last (undoStack history) with
      | None => mkOutcome Returned table (Some editor)
      | Some undoItem =>
        let history := set_undoStack history (removelast (undoStack history)) in
        match pushIntoRedoStack history (vscode.selections editor) with
        | None => mkOutcome Thrown (<[documentId := history]> table) (Some editor)
        | Some history =>
          let editor := vscode.set_selections editor (selections undoItem) in
          match revealActiveCursor editor with
          | None => mkOutcome Thrown (<[documentId := history]> table) (Some editor)
          | Some editor =>
            let history := set_undoRedoCounter history (undoRedoCounter history + 1) in
            let history := set_selectionsHistory history (getInitialSelectionsHistory editor) in
            mkOutcome Returned (<[documentId := history]> table) (Some editor)
          end
        end
      end
    end
  end.

Definition cursorRedo
    (editor : option vscode.TextEditor)
    (table : gmap string DocumentHistory) : Outcome :=
  match editor with
  | None => mkOutcome Returned table None
  | Some editor =>
    let documentId := getDocumentId (vscode.document editor) in
    match table !! documentId with
    | None => mkOutcome Thrown table (Some editor)
    | Some history =>
      match last (redoStack history) with
      | None => mkOutcome Returned table (Some editor)
      | Some redoItem =>
        let history := set_redoStack history (removelast (redoStack history)) in
        match pushIntoUndoStack history (vscode.selections editor) with
        | None => mkOutcome Thrown (<[documentId := history]> table) (Some editor)
        | Some history =>
          let editor := vscode.set_selections editor (selections redoItem) in
          match revealActiveCursor editor with
          | None => mkOutcome Thrown (<[documentId := history]> table) (Some editor)
          | Some editor =>
            let history := set_undoRedoCounter history (undoRedoCounter history + 1) in
            let history := set_selectionsHistory history (getInitialSelectionsHistory editor) in
            mkOutcome Returned (<[documentId := history]> table) (Some editor)
          end
        end
      end
    end
  end.

(** [timestamp] is the value of [new Date().getTime()]. *)
Definition handleSelectionChange
    (e : vscode.TextEditorSelectionChangeEvent) (timestamp : Z)
    (table : gmap string DocumentHistory) : Completion * gmap string DocumentHistory :=
  let editor := vscode.textEditor e in
  let documentId := getDocumentId (vscode.document editor) in
  match table !! documentId with
  | None => (Thrown, table)
  | Some history =>
    if (undoRedoCounter history >? 0)%Z
    then (Returned,
          <[documentId := set_undoRedoCounter history (undoRedoCounter history - 1)]> table)
    else
      let w := selectionsHistory history in
      match (if (timestamp - lastSelectionsTimestamp history >? FOUR_SECONDS)%Z
             then Some true
             else isLastSelectionsChangeSignificant w (vscode.event_selections e)
                    (vscode.version (vscode.document editor))) with
      | None => (Thrown, table)
      | Some significant =>
        match (if significant : bool
               then
                 history ← pushIntoUndoStack history (lastSelections w);
                 let history :=
                   if (MAX_STACK_SIZE <? length (undoStack history))%nat
                   then set_undoStack history (tail (undoStack history))
                   else history in
                 Some (set_redoStack history [])
               else Some history) with
        | None => (Thrown, table)
        | Some history =>
          let history :=
            updateHistoryWithNewSelections history (vscode.event_selections e)
              (vscode.version (vscode.document editor)) in
          (Returned, <[documentId := set_lastSelectionsTimestamp history timestamp]> table)
        end
      end
  end.

(** * Specification-side definitions *)

(** ** The classifier's rules, as the specification words them *)

Section Rules.
Variables (w : SelectionsHistory) (cur : list vscode.Selection) (curVer : Z).

Let prev := previousOfLastSelections w.
Let prevVer := previousOfLastDocumentVersion w.
Let lst := lastSelections w.
Let lastVer := lastDocumentVersion w.

Definition rule1 : Prop := length cur ≠ length lst.

Definition rule2 : Prop := length lst ≠ length prev.

Definition rule3 : Prop :=
  ∃ i c l, cur !! i = Some c ∧ lst !! i = Some l
    ∧ ¬ (vscode.anchor c = vscode.active c ↔ vscode.anchor l = vscode.active l).

Definition rule4 : Prop :=
  ∃ i c l, cur !! i = Some c ∧ lst !! i = Some l
    ∧ vscode.anchor c ≠ vscode.active c
    ∧ vscode.anchor c ≠ vscode.anchor l
    ∧ vscode.active c ≠ vscode.active l.

Definition rule5 : Prop :=
  ∃ i c l p, cur !! i = Some c ∧ lst !! i = Some l ∧ prev !! i = Some p
    ∧ let d1 := Z.abs (vscode.line (vscode.active l) - vscode.line (vscode.active p)) in
      let d2 := Z.abs (vscode.line (vscode.active c) - vscode.line (vscode.active l)) in
      (d1 * 5 < d2 ∨ d1 > d2 * 5)%Z.

Definition rule6 : Prop := prevVer = lastVer ∧ lastVer ≠ curVer.

Definition rule7 : Prop := prevVer ≠ lastVer ∧ lastVer = curVer.

Definition anyRule : Prop :=
  rule1 ∨ rule2 ∨ rule3 ∨ rule4 ∨ rule5 ∨ rule6 ∨ rule7.
End Rules.

(** ** The guarded push, as the specification words it *)

(** The two ends of a selection: the lesser and the greater of its anchor
    and its active position. *)
Definition Selection_start (s : vscode.Selection) : vscode.Position :=
  vscode.range_start (vscode.Selection_range s).

Definition Selection_end (s : vscode.Selection) : vscode.Position :=
  vscode.range_end (vscode.Selection_range s).

Definition sameEnds (a b : vscode.Selection) : Prop :=
  Selection_start a = Selection_start b ∧ Selection_end a = Selection_end b.

#[global] Instance sameEnds_dec : RelDecision sameEnds.
Proof. intros a b. unfold sameEnds. apply _. Defined.

(** The same anchor and the same active position, index by index. *)
Definition sameAnchorAndActive (a b : vscode.Selection) : Prop :=
  vscode.anchor a = vscode.anchor b ∧ vscode.active a = vscode.active b.

(** The selection with anchor and active exchanged. *)
Definition reversed (s : vscode.Selection) : vscode.Selection :=
  vscode.mkSelection (vscode.active s) (vscode.anchor s).

(** A push that is skipped when the list has the same ends, index by index,
    as the list on top of the stack. *)
Definition dedupPush (stack : list UndoItem) (sels : list vscode.Selection) : list UndoItem :=
  match last stack with
  | Some top =>
    if bool_decide (Forall2 sameEnds sels (selections top))
    then stack
    else stack ++ [mkUndoItem sels]
  | None => stack ++ [mkUndoItem sels]
  end.


(** ** Recording a selection change, as the specification words it *)

(** Trim to at most [MAX_STACK_SIZE] entries by dropping the oldest. *)
Definition trim (stack : list UndoItem) : list UndoItem :=
  if (MAX_STACK_SIZE <? length stack)%nat then tail stack else stack.

(** previous ← old last, last ← (newSelections, newVersion). *)
Definition shiftWindow (w : SelectionsHistory) (sels : list vscode.Selection) (ver : Z)
    : SelectionsHistory :=
  {| previousOfLastSelections := lastSelections w;
     previousOfLastDocumentVersion := lastDocumentVersion w;
     lastSelections := sels;
     lastDocumentVersion := ver |}.

(** The history after an unsuppressed event; [commit] tells whether the
    last selections are committed to the undo stack. *)
Definition recorded (h : DocumentHistory) (sels : list vscode.Selection) (ver now : Z)
    (commit : bool) : DocumentHistory :=
  {| selectionsHistory := shiftWindow (selectionsHistory h) sels ver;
     undoStack :=
       if commit
       then trim (dedupPush (undoStack h) (lastSelections (selectionsHistory h)))
       else undoStack h;
     redoStack := if commit then [] else redoStack h;
     lastSelectionsTimestamp := now;
     undoRedoCounter := undoRedoCounter h |}.

(** The document an event is about. *)
Definition eventDocumentId (e : vscode.TextEditorSelectionChangeEvent) : string :=
  getDocumentId (vscode.document (vscode.textEditor e)).

Definition eventVersion (e : vscode.TextEditorSelectionChangeEvent) : Z :=
  vscode.version (vscode.document (vscode.textEditor e)).

(** ** The calls the host makes, and the tables they reach *)

Inductive Call :=
| CallInitiateUndoHistory (editor : option vscode.TextEditor) (now : Z)
| CallCursorUndo (editor : option vscode.TextEditor) (now : Z)
| CallCursorRedo (editor : option vscode.TextEditor)
| CallHandleSelectionChange (e : vscode.TextEditorSelectionChangeEvent) (timestamp : Z).

(** The table after a call, however the call ended. *)
Definition after (table : gmap string DocumentHistory) (c : Call)
    : gmap string DocumentHistory :=
  match c with
  | CallInitiateUndoHistory editor now => initiateUndoHistory editor now table
  | CallCursorUndo editor now => documentsHistory (cursorUndo editor now table)
  | CallCursorRedo editor => documentsHistory (cursorRedo editor table)
  | CallHandleSelectionChange e timestamp => (handleSelectionChange e timestamp table).2
  end.

(** The table starts empty: [const documentsHistory = {}]. *)
Definition run (calls : list Call) : gmap string DocumentHistory :=
  foldl after ∅ calls.

(** No entry of the stack has the same ends as the entry below it. *)
Definition noRepeat (stack : list UndoItem) : Prop :=
  ∀ i a b, stack !! i = Some a → stack !! S i = Some b →
    ¬ Forall2 sameEnds (selections b) (selections a).

Definition wellFormed (h : DocumentHistory) : Prop :=
  length (undoStack h) + length (redoStack h) ≤ MAX_STACK_SIZE
  ∧ noRepeat (undoStack h).

(** ** Sample data: a document of a hundred lines of thirty characters *)

Definition cursorAt (l c : Z) : vscode.Selection :=
  vscode.mkSelection (vscode.mkPosition l c) (vscode.mkPosition l c).

Definition sampleDocument : vscode.TextDocument :=
  vscode.mkTextDocument "file:///sample.txt" 1 (replicate 100 30%Z).

(** An editor on the sample document showing lines 0 to 40. *)
Definition editorWith (sels : list vscode.Selection) : vscode.TextEditor :=
  vscode.mkTextEditor sampleDocument sels
    [vscode.mkRange (vscode.mkPosition 0 0) (vscode.mkPosition 40 30)] [].

Definition eventWith (sels : list vscode.Selection) : vscode.TextEditorSelectionChangeEvent :=
  vscode.mkEvent (editorWith sels) sels.

(** The editor opens with one cursor at the top of the document. *)
Definition openedTable : gmap string DocumentHistory :=
  run [CallInitiateUndoHistory (Some (editorWith [cursorAt 0 0])) 0].

(** Then the cursor moves to line 5, and an undo brings it back. *)
Definition movedCalls : list Call :=
  [CallInitiateUndoHistory (Some (editorWith [cursorAt 0 0])) 0;
   CallHandleSelectionChange (eventWith [cursorAt 5 0]) 10].

Definition undoneTable : gmap string DocumentHistory :=
  documentsHistory (cursorUndo (Some (editorWith [cursorAt 5 0])) 20 (run movedCalls)).

(** A selection from (0,0) to (0,5), and a history whose undo stack holds
    it alone. *)
Definition forwardSelection : vscode.Selection :=
  vscode.mkSelection (vscode.mkPosition 0 0) (vscode.mkPosition 0 5).

Definition historyWithForwardOnTop : DocumentHistory :=
  {| selectionsHistory := getInitialSelectionsHistory (editorWith [forwardSelection]);
     undoStack := [mkUndoItem [forwardSelection]];
     redoStack := [mkUndoItem [forwardSelection]];
     lastSelectionsTimestamp := 0;
     undoRedoCounter := 0 |}.

(** The table after the same event has been delivered at [t1] and at [t2]. *)
Definition deliveredTwice (table : gmap string DocumentHistory)
    (e : vscode.TextEditorSelectionChangeEvent) (t1 t2 : Z) : gmap string DocumentHistory :=
  (handleSelectionChange e t2 (handleSelectionChange e t1 table).2).2.

(** ** The reveal policy, as the specification words it *)

(** The position is on a line at most [n] lines above the first line of the
    range and at most [n] lines below its last line. *)
Definition withinLinesOf (n : Z) (r : vscode.Range) (p : vscode.Position) : Prop :=
  (vscode.line (vscode.range_start r) - n ≤ vscode.line p
   ∧ vscode.line p ≤ vscode.line (vscode.range_end r) + n)%Z.

(** The range around a visible range that counts as nearly visible. *)
Definition nearlyVisibleRange (d : vscode.TextDocument) (r : vscode.Range) : vscode.Range :=
  vscode.validateRange d
    (vscode.new_Range
       (vscode.mkPosition (Z.max (vscode.line (vscode.range_start r) - 15) 0)
          (vscode.character (vscode.range_start r)))
       (vscode.mkPosition (vscode.line (vscode.range_end r) + 15)
          (vscode.character (vscode.range_end r)))).

(** A hundred lines of thirty characters, except line 40, which has ten. *)
Definition unevenDocument : vscode.TextDocument :=
  vscode.mkTextDocument "file:///uneven.txt" 1
    (replicate 40 30%Z ++ [10%Z] ++ replicate 59 30%Z).

(** The editor shows lines 20 to 40 in full; the cursor is on line 55, at
    character 20. *)
Definition editorBelowView : vscode.TextEditor :=
  vscode.mkTextEditor unevenDocument [cursorAt 55 20]
    [vscode.mkRange (vscode.mkPosition 20 0) (vscode.mkPosition 40 10)] [].

(** The editor opens and the cursor then moves down one line every five
    seconds, 999 times. *)
Definition fillingCalls : list Call :=
  CallInitiateUndoHistory (Some (editorWith [cursorAt 0 0])) 0
  :: map (λ i, CallHandleSelectionChange (eventWith [cursorAt (Z.of_nat i) 0])
                 (5000 * Z.of_nat i))
       (seq 1 999).

(** The table after a run of selection-change events, each with its time. *)
Definition deliver (events : list (vscode.TextEditorSelectionChangeEvent * Z))
    (table : gmap string DocumentHistory) : gmap string DocumentHistory :=
  foldl (λ t ev, (handleSelectionChange ev.1 ev.2 t).2) table events.

(** The cursor goes from line 0 to line 5 and straight back; an undo then
    finds on the undo stack the selections the editor already shows. *)
Definition thereAndBackCalls : list Call :=
  [CallInitiateUndoHistory (Some (editorWith [cursorAt 0 0])) 0;
   CallHandleSelectionChange (eventWith [cursorAt 5 0]) 10;
   CallHandleSelectionChange (eventWith [cursorAt 0 0]) 20;
   CallCursorUndo (Some (editorWith [cursorAt 0 0])) 30].

(** ** More specification-side definitions *)

(** The document a call is about, if it has an editor. *)
Definition callDocument (c : Call) : option string :=
  match c with
  | CallInitiateUndoHistory editor _
  | CallCursorUndo editor _
  | CallCursorRedo editor => (λ ed, getDocumentId (vscode.document ed)) <$> editor
  | CallHandleSelectionChange e _ => Some (eventDocumentId e)
  end.

(** Neither stack repeats an entry, and the counter is not negative. *)
Definition tidy (h : DocumentHistory) : Prop :=
  noRepeat (undoStack h) ∧ noRepeat (redoStack h) ∧ (0 ≤ undoRedoCounter h)%Z.

(** The same event delivered once at each of the given times. *)
Definition deliverSame (e : vscode.TextEditorSelectionChangeEvent) (times : list Z)
    (table : gmap string DocumentHistory) : gmap string DocumentHistory :=
  deliver (map (λ t, (e, t)) times) table.

(** The history a successful undo of [item] leaves, the editor having shown
    [live] on a document at version [ver]. *)
Definition undone (h : DocumentHistory) (item : UndoItem)
    (live : list vscode.Selection) (ver : Z) : DocumentHistory :=
  {| selectionsHistory :=
       {| previousOfLastSelections := [];
          previousOfLastDocumentVersion := ver;
          lastSelections := selections item;
          lastDocumentVersion := ver |};
     undoStack := removelast (undoStack h);
     redoStack := dedupPush (redoStack h) live;
     lastSelectionsTimestamp := lastSelectionsTimestamp h;
     undoRedoCounter := undoRedoCounter h + 1 |}.

(** The history a successful redo of [item] leaves. *)
Definition redone (h : DocumentHistory) (item : UndoItem)
    (live : list vscode.Selection) (ver : Z) : DocumentHistory :=
  {| selectionsHistory :=
       {| previousOfLastSelections := [];
          previousOfLastDocumentVersion := ver;
          lastSelections := selections item;
          lastDocumentVersion := ver |};
     undoStack := dedupPush (undoStack h) live;
     redoStack := removelast (redoStack h);
     lastSelectionsTimestamp := lastSelectionsTimestamp h;
     undoRedoCounter := undoRedoCounter h + 1 |}.

(** The editor after [revealActiveCursor] on an editor showing [sels]: the
    same but for at most one more reveal, of the empty range at the active
    position of the first selection. *)
Definition revealedFrom (editor editor' : vscode.TextEditor) : Prop :=
  vscode.selections editor' = vscode.selections editor
  ∧ vscode.document editor' = vscode.document editor
  ∧ vscode.visibleRanges editor' = vscode.visibleRanges editor
  ∧ (vscode.revealed editor' = vscode.revealed editor
     ∨ ∃ sel t, vscode.selection editor = Some sel
                ∧ vscode.revealed editor'
                  = vscode.revealed editor
                    ++ [(vscode.mkRange (vscode.active sel) (vscode.active sel), t)]).

(** A position the document holds. *)
Definition validIn (d : vscode.TextDocument) (p : vscode.Position) : Prop :=
  ∃ len, vscode.lineLengths d !! Z.to_nat (vscode.line p) = Some len
         ∧ (0 ≤ vscode.line p)%Z ∧ (0 ≤ vscode.character p ≤ len)%Z.

(** What holds of a history from the first delivery of [e] on, the stack
    having had [n] entries before it. *)
Definition repeating (e : vscode.TextEditorSelectionChangeEvent) (n : nat)
    (h : DocumentHistory) : Prop :=
  lastSelections (selectionsHistory h) = vscode.event_selections e
  ∧ (undoRedoCounter h ≤ 0)%Z
  ∧ (length (undoStack h) ≤ n + 1
     ∨ (length (undoStack h) ≤ n + 2
        ∧ ∃ top, last (undoStack h) = Some top
                 ∧ Forall2 sameEnds (vscode.event_selections e) (selections top))).

(** The editor or the event of the call shows at least one selection. *)
Definition showsSelections (c : Call) : Prop :=
  match c with
  | CallInitiateUndoHistory (Some editor) _
  | CallCursorUndo (Some editor) _
  | CallCursorRedo (Some editor) => vscode.selections editor ≠ []
  | CallHandleSelectionChange e _ => vscode.event_selections e ≠ []
  | _ => True
  end.

(** No entry of either stack is an empty list, nor is the window's last
    list. *)
Definition populated (h : DocumentHistory) : Prop :=
  Forall (λ item, selections item ≠ []) (undoStack h)
  ∧ Forall (λ item, selections item ≠ []) (redoStack h)
  ∧ lastSelections (selectionsHistory h) ≠ [].

(** The cursor moves from line 0 to line 5 and, five seconds later, to
    line 9: two entries are committed. *)
Definition twoMovesCalls : list Call :=
  [CallInitiateUndoHistory (Some (editorWith [cursorAt 0 0])) 0;
   CallHandleSelectionChange (eventWith [cursorAt 5 0]) 10;
   CallHandleSelectionChange (eventWith [cursorAt 9 0]) 5000].

(** Then both moves are undone, each undo followed by its notification. *)
Definition twoUndosCalls : list Call :=
  twoMovesCalls ++
  [CallCursorUndo (Some (editorWith [cursorAt 9 0])) 6000;
   CallHandleSelectionChange (eventWith [cursorAt 5 0]) 6001;
   CallCursorUndo (Some (editorWith [cursorAt 5 0])) 7000;
   CallHandleSelectionChange (eventWith [cursorAt 0 0]) 7001].

(** The selection from (0,2) to (0,4), made forwards and made backwards. *)
Definition selectedForwards : vscode.Selection :=
  vscode.mkSelection (vscode.mkPosition 0 2) (vscode.mkPosition 0 4).

Definition selectedBackwards : vscode.Selection :=
  vscode.mkSelection (vscode.mkPosition 0 4) (vscode.mkPosition 0 2).

(** The cursor is at (0,2); the text up to (0,4) is selected forwards, then
    the same text backwards, then the selection is cancelled. *)
Definition reselectCalls : list Call :=
  [CallInitiateUndoHistory (Some (editorWith [cursorAt 0 2])) 0;
   CallHandleSelectionChange (eventWith [selectedForwards]) 10;
   CallHandleSelectionChange (eventWith [selectedBackwards]) 20;
   CallHandleSelectionChange (eventWith [cursorAt 0 2]) 30].
(** * Properties *)

(** ** Positions, ranges and selections *)

Lemma Position_isEqual_spec (p q : vscode.Position) :
  vscode.Position_isEqual p q = true ↔ p = q.
Proof.
  destruct p as [pl pc], q as [ql qc]; unfold vscode.Position_isEqual; simpl.
  rewrite andb_true_iff, !Z.eqb_eq. split.
  - intros [-> ->]; reflexivity.
  - intros [= -> ->]; split; reflexivity.
Qed.

Lemma Position_isEqual_false (p q : vscode.Position) :
  vscode.Position_isEqual p q = false ↔ p ≠ q.
Proof.
  rewrite <- Position_isEqual_spec. destruct (vscode.Position_isEqual p q); split; congruence.
Qed.

Lemma Position_isBefore_irrefl (p : vscode.Position) : vscode.Position_isBefore p p = false.
Proof. unfold vscode.Position_isBefore. rewrite !Z.ltb_irrefl. reflexivity. Qed.

(** A selection is empty exactly when its anchor is its active position. *)
Lemma Selection_isEmpty_spec (s : vscode.Selection) :
  vscode.Selection_isEmpty s = true ↔ vscode.anchor s = vscode.active s.
Proof.
  unfold vscode.Selection_isEmpty, vscode.Selection_range, vscode.new_Range, vscode.Range_isEmpty.
  destruct (vscode.Position_isBefore _ _); simpl; rewrite Position_isEqual_spec;
    split; congruence.
Qed.

Lemma Selection_isEmpty_false (s : vscode.Selection) :
  vscode.Selection_isEmpty s = false ↔ vscode.anchor s ≠ vscode.active s.
Proof.
  rewrite <- Selection_isEmpty_spec. destruct (vscode.Selection_isEmpty s); split; congruence.
Qed.

(** ** Early-return loops *)

Lemma for_from_spec (n i : nat) (body : nat → option bool) :
  (∀ j, i ≤ j < i + n → is_Some (body j)) →
  ∃ b, for_from n i body = Some b
       ∧ (b = true ↔ ∃ j, i ≤ j < i + n ∧ body j = Some true).
Proof.
  revert i. induction n as [|n IH]; intros i Htot; simpl.
  - exists false. split; [reflexivity|]. split; [discriminate|]. intros (j & ? & _); lia.
  - destruct (Htot i ltac:(lia)) as [[|] Hb]; rewrite Hb.
    + exists true. split; [reflexivity|]. split; [|reflexivity].
      intros _. exists i. split; [lia|assumption].
    + destruct (IH (S i)) as (b & Hrun & Hiff).
      { intros j Hj. apply Htot. lia. }
      exists b. split; [assumption|]. rewrite Hiff. split.
      * intros (j & Hj & Hbj). exists j. split; [lia|assumption].
      * intros (j & Hj & Hbj). exists j. split; [|assumption].
        destruct (decide (j = i)) as [->|]; [congruence|lia].
Qed.

Section ClassifierBodies.
Variables (prev lst cur : list vscode.Selection).
Hypothesis Hcl : length cur = length lst.
Hypothesis Hlp : length lst = length prev.

Lemma emptinessFlipped_total (j : nat) :
  j < length cur → is_Some (emptinessFlipped cur lst j).
Proof using Hcl Hlp.
  intros Hj.
  destruct (lookup_lt_is_Some_2 cur j Hj) as [c Hc].
  destruct (lookup_lt_is_Some_2 lst j ltac:(lia)) as [l Hl].
  unfold emptinessFlipped. rewrite Hc; simpl.
  destruct (vscode.Selection_isEmpty c); simpl; rewrite ?Hl; simpl;
    destruct (vscode.Selection_isEmpty l); simpl; eauto.
Qed.

Lemma emptinessFlipped_true (j : nat) :
  emptinessFlipped cur lst j = Some true ↔
  ∃ c l, cur !! j = Some c ∧ lst !! j = Some l
    ∧ ¬ (vscode.anchor c = vscode.active c ↔ vscode.anchor l = vscode.active l).
Proof using Type.
  unfold emptinessFlipped. split.
  - destruct (cur !! j) as [c|] eqn:Hc; simpl; [|discriminate].
    destruct (lst !! j) as [l|] eqn:Hl; simpl;
      [|destruct (vscode.Selection_isEmpty c); simpl; discriminate].
    intros H. exists c, l. split; [reflexivity|]. split; [reflexivity|].
    rewrite <- !Selection_isEmpty_spec.
    destruct (vscode.Selection_isEmpty c), (vscode.Selection_isEmpty l);
      simpl in H; try discriminate; intros [H1 H2]; auto; discriminate (H1 eq_refl) || discriminate (H2 eq_refl).
  - intros (c & l & -> & -> & Hne); simpl.
    rewrite <- !Selection_isEmpty_spec in Hne.
    destruct (vscode.Selection_isEmpty c), (vscode.Selection_isEmpty l);
      simpl; try reflexivity; exfalso; apply Hne; split; congruence.
Qed.

Lemma bothEndsMoved_total (j : nat) :
  j < length cur → is_Some (bothEndsMoved cur lst j).
Proof using Hcl Hlp.
  intros Hj.
  destruct (lookup_lt_is_Some_2 cur j Hj) as [c Hc].
  destruct (lookup_lt_is_Some_2 lst j ltac:(lia)) as [l Hl].
  unfold bothEndsMoved. rewrite Hc; simpl.
  destruct (vscode.Selection_isEmpty c); simpl; eauto.
  rewrite Hl; simpl. destruct (vscode.Position_isEqual _ _); simpl; eauto.
Qed.

Lemma bothEndsMoved_true (j : nat) :
  bothEndsMoved cur lst j = Some true ↔
  ∃ c l, cur !! j = Some c ∧ lst !! j = Some l
    ∧ vscode.anchor c ≠ vscode.active c
    ∧ vscode.anchor c ≠ vscode.anchor l
    ∧ vscode.active c ≠ vscode.active l.
Proof using Type.
  unfold bothEndsMoved. split.
  - destruct (cur !! j) as [c|] eqn:Hc; simpl; [|discriminate].
    destruct (vscode.Selection_isEmpty c) eqn:He; simpl; [discriminate|].
    destruct (lst !! j) as [l|] eqn:Hl; simpl; [|discriminate].
    destruct (vscode.Position_isEqual (vscode.anchor c) _) eqn:Ha; simpl; [discriminate|].
    destruct (vscode.Position_isEqual (vscode.active c) _) eqn:Hb; simpl; [discriminate|].
    intros _. exists c, l.
    apply Selection_isEmpty_false in He. apply Position_isEqual_false in Ha, Hb. auto.
  - intros (c & l & -> & -> & He & Ha & Hb); simpl.
    apply Selection_isEmpty_false in He. apply Position_isEqual_false in Ha, Hb.
    rewrite He; simpl. rewrite Ha; simpl. rewrite Hb. reflexivity.
Qed.

Lemma linesJumped_total (j : nat) :
  j < length lst → is_Some (linesJumped prev lst cur j).
Proof using Hcl Hlp.
  intros Hj.
  destruct (lookup_lt_is_Some_2 cur j ltac:(lia)) as [c Hc].
  destruct (lookup_lt_is_Some_2 lst j Hj) as [l Hl].
  destruct (lookup_lt_is_Some_2 prev j ltac:(lia)) as [p Hp].
  unfold linesJumped. rewrite Hl; simpl. rewrite Hp; simpl. rewrite Hc; simpl. eauto.
Qed.

Lemma linesJumped_true (j : nat) :
  linesJumped prev lst cur j = Some true ↔
  ∃ c l p, cur !! j = Some c ∧ lst !! j = Some l ∧ prev !! j = Some p
    ∧ let d1 := Z.abs (vscode.line (vscode.active l) - vscode.line (vscode.active p)) in
      let d2 := Z.abs (vscode.line (vscode.active c) - vscode.line (vscode.active l)) in
      (d1 * 5 < d2 ∨ d1 > d2 * 5)%Z.
Proof using Type.
  clear Hcl Hlp.
  unfold linesJumped. split.
  - destruct (lst !! j) as [l|]; simpl; [|discriminate].
    destruct (prev !! j) as [p|]; simpl; [|discriminate].
    destruct (cur !! j) as [c|]; simpl; [|discriminate].
    intros [= H]. exists c, l, p. repeat split.
    apply orb_true_iff in H. destruct H as [H|H]; [left|right]; lia.
  - intros (c & l & p & -> & -> & -> & H); simpl. f_equal.
    apply orb_true_iff. destruct H as [H|H]; [left|right]; lia.
Qed.
End ClassifierBodies.

(** The classifier never throws: rules #1 and #2 guard every index. *)
Lemma isLastSelectionsChangeSignificant_cases
    (w : SelectionsHistory) (cur : list vscode.Selection) (curVer : Z) :
  ∃ b, isLastSelectionsChangeSignificant w cur curVer = Some b
       ∧ (b = true ↔ anyRule w cur curVer).
Proof.
  unfold isLastSelectionsChangeSignificant, anyRule, rule1, rule2.
  destruct (Nat.eqb_spec (length cur) (length (lastSelections w))) as [Hcl|Hcl]; simpl;
    [|exists true; tauto].
  destruct (Nat.eqb_spec (length (lastSelections w))
              (length (previousOfLastSelections w))) as [Hlp|Hlp]; simpl;
    [|exists true; tauto].
  destruct (for_from_spec (length cur) 0 (emptinessFlipped cur (lastSelections w)))
    as (b3 & -> & H3).
  { intros j Hj. apply (emptinessFlipped_total _ _ _ Hcl Hlp). lia. }
  destruct (for_from_spec (length cur) 0 (bothEndsMoved cur (lastSelections w)))
    as (b4 & R4 & H4).
  { intros j Hj. apply (bothEndsMoved_total _ _ _ Hcl Hlp). lia. }
  destruct (for_from_spec (length (lastSelections w)) 0
              (linesJumped (previousOfLastSelections w) (lastSelections w) cur))
    as (b5 & R5 & H5).
  { intros j Hj. apply (linesJumped_total _ _ _ Hcl Hlp). lia. }
  assert (E3 : b3 = true ↔ rule3 w cur).
  { rewrite H3. unfold rule3. split.
    - intros (j & _ & Hb). apply emptinessFlipped_true in Hb.
      destruct Hb as (c & l & ?). exists j, c, l. assumption.
    - intros (j & c & l & Hc & Hl & Hne). exists j. split.
      + apply lookup_lt_Some in Hc. lia.
      + apply emptinessFlipped_true. exists c, l. auto. }
  assert (E4 : b4 = true ↔ rule4 w cur).
  { rewrite H4. unfold rule4. split.
    - intros (j & _ & Hb). apply bothEndsMoved_true in Hb.
      destruct Hb as (c & l & ?). exists j, c, l. assumption.
    - intros (j & c & l & Hc & Hl & Hne). exists j. split.
      + apply lookup_lt_Some in Hc. lia.
      + apply bothEndsMoved_true. exists c, l. auto. }
  assert (E5 : b5 = true ↔ rule5 w cur).
  { rewrite H5. unfold rule5. split.
    - intros (j & _ & Hb). apply linesJumped_true in Hb.
      destruct Hb as (c & l & p & ?). exists j, c, l, p. assumption.
    - intros (j & c & l & p & Hc & Hl & Hp & Hd). exists j. split.
      + apply lookup_lt_Some in Hl. lia.
      + apply linesJumped_true. exists c, l, p. auto. }
  assert (E6 : (previousOfLastDocumentVersion w =? lastDocumentVersion w)%Z
               && negb (lastDocumentVersion w =? curVer)%Z = true ↔ rule6 w curVer).
  { unfold rule6. rewrite andb_true_iff, negb_true_iff, Z.eqb_eq, Z.eqb_neq. tauto. }
  assert (E7 : negb (previousOfLastDocumentVersion w =? lastDocumentVersion w)%Z
               && (lastDocumentVersion w =? curVer)%Z = true ↔ rule7 w curVer).
  { unfold rule7. rewrite andb_true_iff, negb_true_iff, Z.eqb_eq, Z.eqb_neq. tauto. }
  simpl. destruct b3; [exists true; tauto|].
  rewrite R4; simpl. destruct b4; [exists true; tauto|].
  rewrite R5; simpl. destruct b5; [exists true; tauto|].
  destruct (_ && _) eqn:B6 in |- *; [exists true; tauto|].
  destruct (_ && _) eqn:B7 in |- *; [exists true; tauto|].
  exists false. split; [reflexivity|].
  split; [discriminate|].
  rewrite <- E3, <- E4, <- E5, <- E6, <- E7, B6, B7. intuition discriminate.
Qed.

(** C1. The classifier returns a boolean on every input, and that boolean is
    [true] exactly when one of the seven positive rules of the specification
    holds: the cursor count differs between candidate and last; or between
    last and previous; or some index has a candidate and a last selection of
    different emptiness; or some index has a non-empty candidate whose anchor
    and whose active position both differ from the last selection's; or some
    index has line jumps [d1] and [d2] with [d1*5 < d2] or [d1 > d2*5]; or
    the version was unchanged and now changes; or the version had changed
    and now does not.  It is [false] otherwise (rule 8).  A boolean result
    that is a short-circuit cascade of returns of [true] is the disjunction
    of its conditions, whatever the order. *)
Theorem isLastSelectionsChangeSignificant_iff_rules
    (w : SelectionsHistory) (cur : list vscode.Selection) (curVer : Z) :
  (isLastSelectionsChangeSignificant w cur curVer = Some true
     ↔ rule1 w cur ∨ rule2 w ∨ rule3 w cur ∨ rule4 w cur ∨ rule5 w cur
       ∨ rule6 w curVer ∨ rule7 w curVer)
  ∧ (isLastSelectionsChangeSignificant w cur curVer = Some false
     ↔ ¬ (rule1 w cur ∨ rule2 w ∨ rule3 w cur ∨ rule4 w cur ∨ rule5 w cur
          ∨ rule6 w curVer ∨ rule7 w curVer)).
Proof.
  destruct (isLastSelectionsChangeSignificant_cases w cur curVer) as (b & -> & Hb).
  unfold anyRule in Hb. rewrite <- Hb.
  destruct b; split; split; try congruence; try discriminate.
Qed.

(** ** Equality of selection lists, and the guarded push *)

Lemma Selection_isEqual_spec (a b : vscode.Selection) :
  vscode.Selection_isEqual a b = true ↔ sameEnds a b.
Proof.
  unfold vscode.Selection_isEqual, vscode.Range_isEqual, sameEnds, Selection_start, Selection_end.
  rewrite andb_true_iff, !Position_isEqual_spec. reflexivity.
Qed.

Lemma sameEnds_reversed (s : vscode.Selection) : sameEnds (reversed s) s.
Proof.
  destruct s as [[al ac] [bl bc]].
  unfold sameEnds, Selection_start, Selection_end, reversed, vscode.Selection_range,
    vscode.new_Range, vscode.Position_isBefore; simpl.
  destruct (Z.ltb_spec bl al), (Z.ltb_spec al bl); simpl; try lia; auto.
  assert (al = bl) as -> by lia.
  destruct (Z.ltb_spec bc ac), (Z.ltb_spec ac bc); simpl; try lia; auto.
  assert (ac = bc) as -> by lia. auto.
Qed.

Lemma selectionsEqualFrom_spec (n i : nat) (l1 l2 : list vscode.Selection) :
  i + n = length l1 → length l1 = length l2 →
  ∃ b, selectionsEqualFrom n i l1 l2 = Some b
       ∧ (b = true ↔ ∀ j x y, i ≤ j → l1 !! j = Some x → l2 !! j = Some y → sameEnds x y).
Proof.
  revert i. induction n as [|n IH]; intros i Hn Hlen; simpl.
  - exists true. split; [reflexivity|]. split; [|reflexivity].
    intros _ j x y Hj Hx _. apply lookup_lt_Some in Hx. lia.
  - destruct (lookup_lt_is_Some_2 l1 i ltac:(lia)) as [x Hx].
    destruct (lookup_lt_is_Some_2 l2 i ltac:(lia)) as [y Hy].
    rewrite Hx; simpl. rewrite Hy; simpl.
    destruct (vscode.Selection_isEqual x y) eqn:E; simpl.
    + destruct (IH (S i) ltac:(lia) Hlen) as (b & -> & Hb).
      exists b. split; [reflexivity|]. rewrite Hb. split.
      * intros H j x' y' Hj Hx' Hy'.
        destruct (decide (j = i)) as [->|Hne].
        -- rewrite Hx in Hx'. rewrite Hy in Hy'. simplify_eq.
           apply Selection_isEqual_spec. assumption.
        -- apply (H j); [lia|assumption|assumption].
      * intros H j x' y' Hj. apply H. lia.
    + exists false. split; [reflexivity|]. split; [discriminate|].
      intros H. specialize (H i x y (le_n _) Hx Hy).
      apply Selection_isEqual_spec in H. congruence.
Qed.

(** [areSelectionsEqual] never throws, and compares the ends of the
    selections, not their anchors and active positions. *)
Lemma areSelectionsEqual_spec (l1 l2 : list vscode.Selection) :
  areSelectionsEqual l1 l2 = Some (bool_decide (Forall2 sameEnds l1 l2)).
Proof.
  unfold areSelectionsEqual.
  destruct (Nat.eqb_spec (length l1) (length l2)) as [Hlen|Hlen]; simpl.
  - destruct (selectionsEqualFrom_spec (length l1) 0 l1 l2 eq_refl Hlen) as (b & -> & Hb).
    f_equal. destruct b.
    + symmetry. apply bool_decide_eq_true. apply Forall2_same_length_lookup.
      split; [assumption|]. intros j x y. apply Hb; [reflexivity|lia].
    + symmetry. apply bool_decide_eq_false. intros HF.
      apply Forall2_same_length_lookup in HF. destruct HF as [_ HF].
      enough (false = true) by discriminate. apply Hb. intros j x y _. apply HF.
  - f_equal. symmetry. apply bool_decide_eq_false. intros HF.
    apply Forall2_length in HF. contradiction.
Qed.

Lemma shouldPush_spec (stack : list UndoItem) (sels : list vscode.Selection) :
  shouldPush stack sels =
  Some (match last stack with
        | Some top => negb (bool_decide (Forall2 sameEnds sels (selections top)))
        | None => true
        end).
Proof.
  unfold shouldPush. destruct (last stack) as [top|]; [|reflexivity].
  rewrite areSelectionsEqual_spec. reflexivity.
Qed.

Lemma set_undoStack_id (h : DocumentHistory) : set_undoStack h (undoStack h) = h.
Proof. destruct h; reflexivity. Qed.

Lemma set_redoStack_id (h : DocumentHistory) : set_redoStack h (redoStack h) = h.
Proof. destruct h; reflexivity. Qed.

Lemma pushIntoUndoStack_spec (h : DocumentHistory) (sels : list vscode.Selection) :
  pushIntoUndoStack h sels = Some (set_undoStack h (dedupPush (undoStack h) sels)).
Proof.
  unfold pushIntoUndoStack, dedupPush. rewrite shouldPush_spec; simpl.
  destruct (last (undoStack h)) as [top|]; [|reflexivity].
  destruct (bool_decide _); simpl; [|reflexivity].
  rewrite set_undoStack_id. reflexivity.
Qed.

Lemma pushIntoRedoStack_spec (h : DocumentHistory) (sels : list vscode.Selection) :
  pushIntoRedoStack h sels = Some (set_redoStack h (dedupPush (redoStack h) sels)).
Proof.
  unfold pushIntoRedoStack, dedupPush. rewrite shouldPush_spec; simpl.
  destruct (last (redoStack h)) as [top|]; [|reflexivity].
  destruct (bool_decide _); simpl; [|reflexivity].
  rewrite set_redoStack_id. reflexivity.
Qed.

Lemma dedupPush_cases (stack : list UndoItem) (sels : list vscode.Selection) :
  (dedupPush stack sels = stack
     ∧ ∃ top, last stack = Some top ∧ Forall2 sameEnds sels (selections top))
  ∨ (dedupPush stack sels = stack ++ [mkUndoItem sels]
     ∧ ¬ ∃ top, last stack = Some top ∧ Forall2 sameEnds sels (selections top)).
Proof.
  unfold dedupPush. destruct (last stack) as [top|].
  - destruct (bool_decide_reflect (Forall2 sameEnds sels (selections top))) as [H|H].
    + left. eauto.
    + right. split; [reflexivity|]. intros (t & [= <-] & Ht). contradiction.
  - right. split; [reflexivity|]. intros (t & [=] & _).
Qed.

Lemma snoc_neq {A} (l : list A) (x : A) : l ++ [x] ≠ l.
Proof.
  intros H. apply (f_equal length) in H. rewrite length_app in H. simpl in H. lia.
Qed.

(** ** The selection-change listener *)

Lemma handleSelectionChange_suppressed
    (table : gmap string DocumentHistory) (e : vscode.TextEditorSelectionChangeEvent)
    (timestamp : Z) (h : DocumentHistory) :
  table !! eventDocumentId e = Some h →
  (undoRedoCounter h > 0)%Z →
  handleSelectionChange e timestamp table =
  (Returned, <[eventDocumentId e := set_undoRedoCounter h (undoRedoCounter h - 1)]> table).
Proof.
  intros Hh Hc. unfold handleSelectionChange, eventDocumentId in *. rewrite Hh.
  destruct (Z.gtb_spec (undoRedoCounter h) 0) as [_|?]; [reflexivity|lia].
Qed.

Lemma handleSelectionChange_unsuppressed
    (table : gmap string DocumentHistory) (e : vscode.TextEditorSelectionChangeEvent)
    (timestamp : Z) (h : DocumentHistory) :
  table !! eventDocumentId e = Some h →
  (undoRedoCounter h ≤ 0)%Z →
  ∃ significant,
    isLastSelectionsChangeSignificant (selectionsHistory h)
      (vscode.event_selections e) (eventVersion e) = Some significant
    ∧ handleSelectionChange e timestamp table =
      (Returned,
       <[eventDocumentId e :=
           recorded h (vscode.event_selections e) (eventVersion e) timestamp
             ((timestamp - lastSelectionsTimestamp h >? FOUR_SECONDS)%Z || significant)]>
         table).
Proof.
  intros Hh Hc.
  destruct (isLastSelectionsChangeSignificant_cases (selectionsHistory h)
              (vscode.event_selections e) (eventVersion e)) as (sig & Hsig & _).
  exists sig. split; [assumption|].
  unfold handleSelectionChange, eventDocumentId, eventVersion in *. rewrite Hh.
  destruct (Z.gtb_spec (undoRedoCounter h) 0) as [?|_]; [lia|].
  rewrite Hsig.
  assert (Hcommit :
    (if (timestamp - lastSelectionsTimestamp h >? FOUR_SECONDS)%Z then Some true else Some sig)
    = Some ((timestamp - lastSelectionsTimestamp h >? FOUR_SECONDS)%Z || sig)).
  { destruct (_ >? _)%Z; reflexivity. }
  rewrite Hcommit. destruct (_ || _).
  - rewrite pushIntoUndoStack_spec; simpl. unfold recorded, trim; simpl.
    destruct (_ <? _)%nat; reflexivity.
  - reflexivity.
Qed.

(** C2. An unsuppressed selection-change event on a document with a history
    returns normally.  The window's last selections are pushed onto the undo
    stack (unless they repeat its top), the stack is trimmed, and the redo
    stack is cleared, exactly when the event comes more than 4000 ms after
    the last one or the classifier finds the change significant; otherwise
    both stacks are kept.  In both cases the window shifts forward and the
    timestamp becomes the event's. *)
Theorem handleSelectionChange_commits_iff_due
    (table : gmap string DocumentHistory) (e : vscode.TextEditorSelectionChangeEvent)
    (timestamp : Z) (h : DocumentHistory) :
  table !! eventDocumentId e = Some h →
  (undoRedoCounter h ≤ 0)%Z →
  ∃ significant h',
    isLastSelectionsChangeSignificant (selectionsHistory h)
      (vscode.event_selections e) (eventVersion e) = Some significant
    ∧ handleSelectionChange e timestamp table = (Returned, <[eventDocumentId e := h']> table)
    ∧ ((timestamp - lastSelectionsTimestamp h > 4000)%Z ∨ significant = true →
         undoStack h' = trim (dedupPush (undoStack h) (lastSelections (selectionsHistory h)))
         ∧ redoStack h' = [])
    ∧ (¬ ((timestamp - lastSelectionsTimestamp h > 4000)%Z ∨ significant = true) →
         undoStack h' = undoStack h ∧ redoStack h' = redoStack h)
    ∧ selectionsHistory h' =
        {| previousOfLastSelections := lastSelections (selectionsHistory h);
           previousOfLastDocumentVersion := lastDocumentVersion (selectionsHistory h);
           lastSelections := vscode.event_selections e;
           lastDocumentVersion := eventVersion e |}
    ∧ lastSelectionsTimestamp h' = timestamp
    ∧ undoRedoCounter h' = undoRedoCounter h.
Proof.
  intros Hh Hc.
  destruct (handleSelectionChange_unsuppressed table e timestamp h Hh Hc)
    as (sig & Hsig & Hrun).
  exists sig. eexists. split; [exact Hsig|]. split; [exact Hrun|].
  unfold recorded, FOUR_SECONDS; simpl.
  destruct (Z.gtb_spec (timestamp - lastSelectionsTimestamp h) (4 * 1000)) as [Ht|Ht];
    destruct sig; simpl; repeat split; auto; try lia; try tauto;
    intros [?|?]; solve [lia|discriminate].
Qed.

Lemma handleSelectionChange_commits_iff_due_witness :
  ∃ h', handleSelectionChange (eventWith [cursorAt 5 0]) 10 openedTable
        = (Returned, <["file:///sample.txt" := h']> openedTable)
        ∧ lastSelectionsTimestamp h' = 10%Z.
Proof.
  destruct (handleSelectionChange_commits_iff_due openedTable (eventWith [cursorAt 5 0]) 10
              (getInitialDocumentHistory (editorWith [cursorAt 0 0]) 0))
    as (sig & h' & _ & Hrun & _ & _ & _ & Hts & _).
  - vm_compute. reflexivity.
  - simpl. lia.
  - exists h'. split; [exact Hrun | exact Hts].
Defined.

(** C8. A selection-change event delivered while the suppression counter is
    positive returns normally and only decrements the counter: the undo
    stack, the redo stack, the window and the timestamp are unchanged, and
    so is every other document's history. *)
Theorem handleSelectionChange_suppressed_only_decrements
    (table : gmap string DocumentHistory) (e : vscode.TextEditorSelectionChangeEvent)
    (timestamp : Z) (h : DocumentHistory) :
  table !! eventDocumentId e = Some h →
  (undoRedoCounter h > 0)%Z →
  ∃ h',
    handleSelectionChange e timestamp table = (Returned, <[eventDocumentId e := h']> table)
    ∧ undoRedoCounter h' = (undoRedoCounter h - 1)%Z
    ∧ undoStack h' = undoStack h
    ∧ redoStack h' = redoStack h
    ∧ selectionsHistory h' = selectionsHistory h
    ∧ lastSelectionsTimestamp h' = lastSelectionsTimestamp h.
Proof.
  intros Hh Hc. eexists. split.
  - apply handleSelectionChange_suppressed; eassumption.
  - simpl. auto.
Qed.

Lemma handleSelectionChange_suppressed_only_decrements_witness :
  ∃ h', handleSelectionChange (eventWith [cursorAt 0 0]) 30 undoneTable
        = (Returned, <["file:///sample.txt" := h']> undoneTable)
        ∧ undoRedoCounter h' = 0%Z.
Proof.
  edestruct (handleSelectionChange_suppressed_only_decrements undoneTable
               (eventWith [cursorAt 0 0]) 30) as (h' & Hrun & Hc & _).
  - vm_compute. reflexivity.
  - simpl. lia.
  - exists h'. split; [exact Hrun | exact Hc].
Defined.

(** ** Undo and redo on a missing history or an empty stack *)

(** C6. On a document that has no history, redo throws and leaves the table
    and the editor as they were, whereas undo returns normally: it has
    created the history (empty stacks, a fresh window on the editor's
    selections and version, counter zero, timestamp now) and, having nothing
    to undo, has left the editor as it was. *)
Theorem missing_history_redo_throws_undo_initiates
    (table : gmap string DocumentHistory) (editor : vscode.TextEditor) (now : Z) :
  table !! getDocumentId (vscode.document editor) = None →
  cursorRedo (Some editor) table = mkOutcome Thrown table (Some editor)
  ∧ cursorUndo (Some editor) now table =
    mkOutcome Returned
      (<[getDocumentId (vscode.document editor) :=
           {| selectionsHistory :=
                {| previousOfLastSelections := [];
                   previousOfLastDocumentVersion := vscode.version (vscode.document editor);
                   lastSelections := vscode.selections editor;
                   lastDocumentVersion := vscode.version (vscode.document editor) |};
              undoStack := [];
              redoStack := [];
              lastSelectionsTimestamp := now;
              undoRedoCounter := 0 |}]> table)
      (Some editor).
Proof.
  intros Hnone. split.
  - unfold cursorRedo. rewrite Hnone. reflexivity.
  - unfold cursorUndo, initiateUndoHistory. rewrite Hnone.
    rewrite lookup_insert_eq. reflexivity.
Qed.

Lemma missing_history_redo_throws_undo_initiates_witness :
  cursorRedo (Some (editorWith [cursorAt 0 0])) ∅
    = mkOutcome Thrown ∅ (Some (editorWith [cursorAt 0 0]))
  ∧ completion (cursorUndo (Some (editorWith [cursorAt 0 0])) 7 ∅) = Returned.
Proof.
  destruct (missing_history_redo_throws_undo_initiates ∅ (editorWith [cursorAt 0 0]) 7)
    as [Hredo Hundo].
  - reflexivity.
  - split; [exact Hredo|]. rewrite Hundo. reflexivity.
Defined.

(** C7. With a history whose undo stack (for undo) or redo stack (for redo)
    is empty, the command returns normally and changes nothing: the whole
    table, hence both stacks, the window, the counter and the timestamp, and
    the editor, hence its live selections, are as before. *)
Theorem empty_stack_is_a_no_op
    (table : gmap string DocumentHistory) (editor : vscode.TextEditor) (now : Z)
    (h : DocumentHistory) :
  table !! getDocumentId (vscode.document editor) = Some h →
  (undoStack h = [] →
     cursorUndo (Some editor) now table = mkOutcome Returned table (Some editor))
  ∧ (redoStack h = [] →
     cursorRedo (Some editor) table = mkOutcome Returned table (Some editor)).
Proof.
  intros Hh. split; intros Hempty.
  - unfold cursorUndo. rewrite Hh, Hh, Hempty. reflexivity.
  - unfold cursorRedo. rewrite Hh, Hempty. reflexivity.
Qed.

Lemma empty_stack_is_a_no_op_witness :
  cursorUndo (Some (editorWith [cursorAt 3 0])) 5 openedTable
    = mkOutcome Returned openedTable (Some (editorWith [cursorAt 3 0]))
  ∧ cursorRedo (Some (editorWith [cursorAt 3 0])) openedTable
    = mkOutcome Returned openedTable (Some (editorWith [cursorAt 3 0])).
Proof.
  destruct (empty_stack_is_a_no_op openedTable (editorWith [cursorAt 3 0]) 5
              (getInitialDocumentHistory (editorWith [cursorAt 0 0]) 0))
    as [Hundo Hredo].
  - vm_compute. reflexivity.
  - split; [apply Hundo | apply Hredo]; reflexivity.
Defined.

(** ** What the guarded push compares *)

(** C4, where the code departs from it.  The top of the undo stack, and of
    the redo stack, is a selection from (0,0) to (0,5); the list pushed is
    the same selection reversed, so its anchor and its active position both
    differ from the top's and the two lists are not equal as the claim has
    it; the push is skipped all the same, on either stack. *)
Lemma push_of_reversed_selection_is_skipped :
  last (undoStack historyWithForwardOnTop) = Some (mkUndoItem [forwardSelection])
  ∧ last (redoStack historyWithForwardOnTop) = Some (mkUndoItem [forwardSelection])
  ∧ ¬ Forall2 sameAnchorAndActive [reversed forwardSelection] [forwardSelection]
  ∧ pushIntoUndoStack historyWithForwardOnTop [reversed forwardSelection]
    = Some historyWithForwardOnTop
  ∧ pushIntoRedoStack historyWithForwardOnTop [reversed forwardSelection]
    = Some historyWithForwardOnTop.
Proof.
  split; [reflexivity|]. split; [reflexivity|]. split; [|split; reflexivity].
  intros H. apply Forall2_cons_1 in H. destruct H as [[H _] _]. discriminate H.
Qed.

(** What the guard of a push compares in the code.  A push never throws;
    it either leaves the history as it was or appends the list.  It is
    skipped exactly when the stack has a top and the list has the length of
    the top's list and, index by index, the same start and the same end,
    these being the lesser and the greater of anchor and active.  A list and
    the list of its reversed selections are equal in that sense. *)
Theorem push_skipped_iff_same_ends (h : DocumentHistory) (sels : list vscode.Selection) :
  (pushIntoUndoStack h sels = Some h
   ∨ pushIntoUndoStack h sels = Some (set_undoStack h (undoStack h ++ [mkUndoItem sels])))
  ∧ (pushIntoUndoStack h sels = Some h
     ↔ ∃ top, last (undoStack h) = Some top ∧ Forall2 sameEnds sels (selections top))
  ∧ (pushIntoRedoStack h sels = Some h
     ∨ pushIntoRedoStack h sels = Some (set_redoStack h (redoStack h ++ [mkUndoItem sels])))
  ∧ (pushIntoRedoStack h sels = Some h
     ↔ ∃ top, last (redoStack h) = Some top ∧ Forall2 sameEnds sels (selections top))
  ∧ Forall2 sameEnds (reversed <$> sels) sels.
Proof.
  rewrite pushIntoUndoStack_spec, pushIntoRedoStack_spec.
  split; [|split; [|split; [|split]]].
  - destruct (dedupPush_cases (undoStack h) sels) as [[-> _]|[-> _]];
      [left; rewrite set_undoStack_id|right]; reflexivity.
  - destruct (dedupPush_cases (undoStack h) sels) as [[-> Htop]|[-> Hno]].
    + rewrite set_undoStack_id. tauto.
    + split; [|tauto]. intros [= H]. apply (f_equal undoStack) in H. simpl in H.
      exfalso. eapply snoc_neq. exact H.
  - destruct (dedupPush_cases (redoStack h) sels) as [[-> _]|[-> _]];
      [left; rewrite set_redoStack_id|right]; reflexivity.
  - destruct (dedupPush_cases (redoStack h) sels) as [[-> Htop]|[-> Hno]].
    + rewrite set_redoStack_id. tauto.
    + split; [|tauto]. intros [= H]. apply (f_equal redoStack) in H. simpl in H.
      exfalso. eapply snoc_neq. exact H.
  - induction sels as [|s sels IH]; simpl; constructor; [apply sameEnds_reversed | exact IH].
Qed.

(** The reversal that the guard of the push takes for a repetition is one
    the classifier takes for a significant change.  With the text from (0,2)
    to (0,4) selected forwards, then backwards, then the selection
    cancelled, the classifier finds the backwards selection significant by
    rule #5, and the cancellation significant too; but the push of the
    backwards selection is skipped, so the undo that follows restores the
    forwards selection: the editor shows anchor and active exchanged with
    respect to what it showed before the cancellation. *)
Lemma reversed_selection_is_restored_exchanged :
  let d := "file:///sample.txt" in
  let out := cursorUndo (Some (editorWith [cursorAt 0 2])) 40 (run reselectCalls) in
  isLastSelectionsChangeSignificant
    (mkSelectionsHistory [cursorAt 0 2] 1 [selectedForwards] 1) [selectedBackwards] 1
  = Some true
  ∧ isLastSelectionsChangeSignificant
      (mkSelectionsHistory [selectedForwards] 1 [selectedBackwards] 1) [cursorAt 0 2] 1
    = Some true
  ∧ (undoStack <$> run reselectCalls !! d)
    = Some [mkUndoItem [cursorAt 0 2]; mkUndoItem [selectedForwards]]
  ∧ completion out = Returned
  ∧ (vscode.selections <$> activeTextEditor out) = Some [selectedForwards]
  ∧ selectedForwards ≠ selectedBackwards.
Proof.
  repeat split; try (vm_compute; reflexivity). discriminate.
Qed.

(** ** The same snapshot delivered twice *)

Lemma length_trim_le (stack : list UndoItem) : length (trim stack) ≤ length stack.
Proof.
  unfold trim. destruct (_ <? _)%nat; [|reflexivity].
  destruct stack; simpl; lia.
Qed.

Lemma length_trim_bound (stack : list UndoItem) :
  length stack ≤ S MAX_STACK_SIZE → length (trim stack) ≤ MAX_STACK_SIZE.
Proof.
  unfold trim. intros H.
  destruct (Nat.ltb_spec MAX_STACK_SIZE (length stack)); [|assumption].
  destruct stack; simpl in *; lia.
Qed.

Lemma length_dedupPush_le (stack : list UndoItem) (sels : list vscode.Selection) :
  length (dedupPush stack sels) ≤ length stack + 1.
Proof.
  destruct (dedupPush_cases stack sels) as [[-> _]|[-> _]];
    rewrite ?length_app; simpl; lia.
Qed.

Lemma length_recorded_undoStack
    (h : DocumentHistory) (sels : list vscode.Selection) (ver now : Z) (commit : bool) :
  length (undoStack (recorded h sels ver now commit)) ≤ length (undoStack h) + 1.
Proof.
  destruct commit; simpl; [|lia].
  etransitivity; [apply length_trim_le | apply length_dedupPush_le].
Qed.

(** C5, as stated, fails.  On the freshly opened document the cursor moves
    from line 0 to line 5 and the same snapshot is delivered again 10 ms
    later: both events push, because the repetition has a line jump of zero
    after a jump of five.  And when the cursor only moves within line 0, so
    that the classifier finds the repetition insignificant, the repetition
    still pushes once more than four seconds have passed. *)
Lemma repeated_snapshot_can_push_twice :
  (∃ h h1 h2,
     openedTable !! "file:///sample.txt" = Some h
     ∧ undoRedoCounter h = 0%Z ∧ length (undoStack h) = 0
     ∧ (handleSelectionChange (eventWith [cursorAt 5 0]) 10 openedTable).2
         !! "file:///sample.txt" = Some h1
     ∧ isLastSelectionsChangeSignificant (selectionsHistory h1) [cursorAt 5 0] 1 = Some true
     ∧ deliveredTwice openedTable (eventWith [cursorAt 5 0]) 10 20
         !! "file:///sample.txt" = Some h2
     ∧ length (undoStack h2) = 2)
  ∧ (∃ h h1 h2,
     openedTable !! "file:///sample.txt" = Some h
     ∧ undoRedoCounter h = 0%Z ∧ length (undoStack h) = 0
     ∧ (handleSelectionChange (eventWith [cursorAt 0 3]) 10 openedTable).2
         !! "file:///sample.txt" = Some h1
     ∧ isLastSelectionsChangeSignificant (selectionsHistory h1) [cursorAt 0 3] 1 = Some false
     ∧ deliveredTwice openedTable (eventWith [cursorAt 0 3]) 10 5000
         !! "file:///sample.txt" = Some h2
     ∧ length (undoStack h2) = 2).
Proof.
  split; do 3 eexists; repeat split; vm_compute; reflexivity.
Qed.

(** C5, amended.  Two consecutive unsuppressed deliveries of the same
    snapshot both return normally and grow the undo stack by at most two
    entries; by at most one when the second comes within 4000 ms of the
    first and the classifier does not find it significant.  The classifier
    finds the repetition significant exactly when, compared with the window's
    last snapshot before the first delivery, the cursor count differs, or
    some cursor's active line differs, or the document version differs. *)
Theorem repeated_snapshot_growth
    (table : gmap string DocumentHistory) (e : vscode.TextEditorSelectionChangeEvent)
    (t1 t2 : Z) (h : DocumentHistory) :
  table !! eventDocumentId e = Some h →
  (undoRedoCounter h ≤ 0)%Z →
  ∃ h1 h2 significant2,
    handleSelectionChange e t1 table = (Returned, <[eventDocumentId e := h1]> table)
    ∧ isLastSelectionsChangeSignificant (selectionsHistory h1)
        (vscode.event_selections e) (eventVersion e) = Some significant2
    ∧ handleSelectionChange e t2 (<[eventDocumentId e := h1]> table)
      = (Returned, <[eventDocumentId e := h2]> table)
    ∧ deliveredTwice table e t1 t2 !! eventDocumentId e = Some h2
    ∧ length (undoStack h2) ≤ length (undoStack h) + 2
    ∧ ((t2 - t1 ≤ 4000)%Z → significant2 = false →
         length (undoStack h2) ≤ length (undoStack h) + 1)
    ∧ (significant2 = true ↔
         length (vscode.event_selections e) ≠ length (lastSelections (selectionsHistory h))
         ∨ (∃ i c l, vscode.event_selections e !! i = Some c
                     ∧ lastSelections (selectionsHistory h) !! i = Some l
                     ∧ vscode.line (vscode.active c) ≠ vscode.line (vscode.active l))
         ∨ lastDocumentVersion (selectionsHistory h) ≠ eventVersion e).
Proof.
  intros Hh Hc.
  destruct (handleSelectionChange_unsuppressed table e t1 h Hh Hc) as (sig1 & _ & Hrun1).
  set (h1 := recorded h (vscode.event_selections e) (eventVersion e) t1
               ((t1 - lastSelectionsTimestamp h >? FOUR_SECONDS)%Z || sig1)) in *.
  assert (Hh1 : <[eventDocumentId e := h1]> table !! eventDocumentId e = Some h1)
    by apply lookup_insert_eq.
  destruct (handleSelectionChange_unsuppressed _ e t2 h1 Hh1 Hc) as (sig2 & Hsig2 & Hrun2).
  rewrite insert_insert_eq in Hrun2.
  set (h2 := recorded h1 (vscode.event_selections e) (eventVersion e) t2
               ((t2 - lastSelectionsTimestamp h1 >? FOUR_SECONDS)%Z || sig2)) in *.
  exists h1, h2, sig2.
  split; [exact Hrun1|]. split; [exact Hsig2|]. split; [exact Hrun2|].
  split; [|split; [|split]].
  - unfold deliveredTwice. rewrite Hrun1; simpl. rewrite Hrun2; simpl.
    apply lookup_insert_eq.
  - pose proof (length_recorded_undoStack h1 (vscode.event_selections e) (eventVersion e) t2
                  ((t2 - lastSelectionsTimestamp h1 >? FOUR_SECONDS)%Z || sig2)).
    pose proof (length_recorded_undoStack h (vscode.event_selections e) (eventVersion e) t1
                  ((t1 - lastSelectionsTimestamp h >? FOUR_SECONDS)%Z || sig1)).
    fold h1 in H0. fold h2 in H. lia.
  - intros Ht ->. subst h2 h1. simpl. unfold FOUR_SECONDS.
    destruct (Z.gtb_spec (t2 - t1) (4 * 1000)); [lia|]. simpl.
    exact (length_recorded_undoStack h (vscode.event_selections e) (eventVersion e) t1
             ((t1 - lastSelectionsTimestamp h >? 4 * 1000)%Z || sig1)).
  - destruct (isLastSelectionsChangeSignificant_cases (selectionsHistory h1)
                (vscode.event_selections e) (eventVersion e)) as (b & Hb & Hrules).
    rewrite Hsig2 in Hb. injection Hb as <-. rewrite Hrules.
    unfold anyRule, rule1, rule2, rule3, rule4, rule5, rule6, rule7; simpl.
    split.
    + intros [H|[H|[H|[H|[H|[H|H]]]]]].
      * congruence.
      * left. exact H.
      * destruct H as (i & c & l & Hc1 & Hl & Hne). rewrite Hc1 in Hl.
        injection Hl as <-. exfalso. apply Hne. reflexivity.
      * destruct H as (i & c & l & Hc1 & Hl & _ & Hne & _). rewrite Hc1 in Hl.
        injection Hl as <-. congruence.
      * destruct H as (i & c & l & p & Hc1 & Hl & Hp & Hd). rewrite Hc1 in Hl.
        injection Hl as <-. right; left. exists i, c, p.
        split; [assumption|]. split; [assumption|]. simpl in Hd. lia.
      * destruct H as [_ H]. congruence.
      * right; right. apply H.
    + intros [H|[H|H]].
      * right; left. exact H.
      * destruct H as (i & c & l & Hc1 & Hl & Hne).
        right; right; right; right; left. exists i, c, c, l.
        split; [assumption|]. split; [assumption|]. split; [assumption|]. simpl. lia.
      * right; right; right; right; right; right. split; [exact H|reflexivity].
Qed.

Lemma repeated_snapshot_growth_witness :
  ∃ h2, deliveredTwice openedTable (eventWith [cursorAt 0 3]) 10 20
          !! "file:///sample.txt" = Some h2
        ∧ length (undoStack h2) ≤ 1.
Proof.
  destruct (repeated_snapshot_growth openedTable (eventWith [cursorAt 0 3]) 10 20
              (getInitialDocumentHistory (editorWith [cursorAt 0 0]) 0))
    as (h1 & h2 & sig2 & Hrun1 & Hsig2 & _ & Hh2 & _ & Hone & _).
  - vm_compute. reflexivity.
  - simpl. lia.
  - exists h2. split; [exact Hh2|].
    apply Hone; [lia|].
    assert (Hh1 : (handleSelectionChange (eventWith [cursorAt 0 3]) 10 openedTable).2
                    !! "file:///sample.txt" = Some h1)
      by (rewrite Hrun1; apply lookup_insert_eq).
    vm_compute in Hh1. injection Hh1 as <-.
    vm_compute in Hsig2. injection Hsig2 as <-. reflexivity.
Defined.

(** ** The reveal policy *)

Lemma some_total {A} (callback : A → option bool) (f : A → bool) (l : list A) :
  (∀ x, callback x = Some (f x)) → some callback l = Some (existsb f l).
Proof.
  intros Hf. induction l as [|x l IH]; simpl; [reflexivity|].
  rewrite Hf; simpl. destruct (f x); simpl; [reflexivity|exact IH].
Qed.

(** With a primary selection, the reveal is a three-way decision: nothing
    when a visible range contains the active position, a default reveal when
    a nearly visible range does, a centred reveal otherwise. *)
Lemma revealActiveCursor_decision (editor : vscode.TextEditor) (sel : vscode.Selection) :
  vscode.selection editor = Some sel →
  revealActiveCursor editor =
  Some (if existsb (λ r, vscode.Range_contains r (vscode.active sel))
             (vscode.visibleRanges editor)
        then editor
        else if existsb (λ r, vscode.Range_contains
                                (nearlyVisibleRange (vscode.document editor) r)
                                (vscode.active sel))
                  (vscode.visibleRanges editor)
        then vscode.revealRange editor
               (vscode.mkRange (vscode.active sel) (vscode.active sel)) vscode.Default
        else vscode.revealRange editor
               (vscode.mkRange (vscode.active sel) (vscode.active sel)) vscode.InCenter).
Proof.
  intros Hsel. unfold revealActiveCursor.
  rewrite (some_total
             (λ range, s ← vscode.selection editor;
                       Some (vscode.Range_contains range (vscode.active s)))
             (λ r, vscode.Range_contains r (vscode.active sel)));
    [|intros r; rewrite Hsel; reflexivity].
  simpl. destruct (existsb _ _); [reflexivity|].
  rewrite (some_total
             (λ range, isCursorNearlyVisibleInRange range editor)
             (λ r, vscode.Range_contains
                     (nearlyVisibleRange (vscode.document editor) r) (vscode.active sel)));
    [|intros r; unfold isCursorNearlyVisibleInRange; rewrite Hsel; reflexivity].
  simpl. rewrite Hsel; simpl.
  unfold getRangeForActiveCursor, vscode.new_Range. rewrite Position_isBefore_irrefl.
  destruct (existsb _ _); reflexivity.
Qed.

(** Without a primary selection the reveal throws. *)
Lemma revealActiveCursor_throws (editor : vscode.TextEditor) :
  vscode.selection editor = None → revealActiveCursor editor = None.
Proof.
  intros Hsel. unfold revealActiveCursor.
  destruct (vscode.visibleRanges editor) as [|r rs]; simpl; rewrite Hsel; reflexivity.
Qed.

(** C9, where the code departs from it.  The editor shows lines 20 to 40;
    line 40 has ten characters.  The cursor is at character 20 of line 55:
    no visible range contains it, and it is fifteen lines below the visible
    range.  The reveal issued is the centred one, not the minimal one. *)
Theorem reveal_fifteen_lines_below_is_centred :
  vscode.selection editorBelowView = Some (cursorAt 55 20)
  ∧ Forall (λ r, vscode.Range_contains r (vscode.mkPosition 55 20) = false)
      (vscode.visibleRanges editorBelowView)
  ∧ Exists (λ r, withinLinesOf 15 r (vscode.mkPosition 55 20))
      (vscode.visibleRanges editorBelowView)
  ∧ revealActiveCursor editorBelowView =
    Some (vscode.revealRange editorBelowView
            (vscode.mkRange (vscode.mkPosition 55 20) (vscode.mkPosition 55 20))
            vscode.InCenter).
Proof.
  split; [reflexivity|]. split; [repeat constructor|]. split; [|reflexivity].
  apply Exists_cons_hd. unfold withinLinesOf; simpl. lia.
Qed.

(** ** What every reachable table satisfies *)

Lemma noRepeat_nil : noRepeat [].
Proof. intros i a b Ha. rewrite lookup_nil in Ha. discriminate. Qed.

Lemma noRepeat_prefix (stack : list UndoItem) (x : UndoItem) :
  noRepeat (stack ++ [x]) → noRepeat stack.
Proof.
  intros H i a b Ha Hb. apply (H i); apply lookup_app_l_Some; assumption.
Qed.

Lemma noRepeat_tail (stack : list UndoItem) : noRepeat stack → noRepeat (tail stack).
Proof.
  intros H i a b Ha Hb. rewrite lookup_tail in Ha, Hb. exact (H (S i) a b Ha Hb).
Qed.

Lemma noRepeat_snoc (stack : list UndoItem) (sels : list vscode.Selection) :
  noRepeat stack →
  (∀ top, last stack = Some top → ¬ Forall2 sameEnds sels (selections top)) →
  noRepeat (stack ++ [mkUndoItem sels]).
Proof.
  intros Hs Htop i a b Ha Hb.
  pose proof (lookup_lt_Some _ _ _ Hb) as Hlt. rewrite length_app in Hlt. simpl in Hlt.
  destruct (decide (S i < length stack)) as [Hin|Hout].
  - rewrite lookup_app_l in Ha by lia. rewrite lookup_app_l in Hb by lia.
    exact (Hs i a b Ha Hb).
  - assert (S i = length stack) as Hi by lia.
    rewrite lookup_app_l in Ha by lia.
    rewrite lookup_app_r in Hb by lia.
    replace (S i - length stack) with 0 in Hb by lia. simpl in Hb.
    injection Hb as <-. simpl. apply Htop.
    rewrite last_lookup. replace (pred (length stack)) with i by lia. exact Ha.
Qed.

Lemma noRepeat_dedupPush (stack : list UndoItem) (sels : list vscode.Selection) :
  noRepeat stack → noRepeat (dedupPush stack sels).
Proof.
  intros Hs. destruct (dedupPush_cases stack sels) as [[-> _]|[-> Hno]]; [assumption|].
  apply noRepeat_snoc; [assumption|]. intros top Htop HF. apply Hno. eauto.
Qed.

Lemma noRepeat_trim (stack : list UndoItem) : noRepeat stack → noRepeat (trim stack).
Proof.
  intros Hs. unfold trim. destruct (_ <? _)%nat; [apply noRepeat_tail|]; assumption.
Qed.

Lemma length_removelast_snoc {A} (l : list A) (x : A) :
  last l = Some x → l = removelast l ++ [x].
Proof.
  intros H. apply last_Some in H. destruct H as [l' ->].
  rewrite removelast_last. reflexivity.
Qed.

Lemma wellFormed_initial (editor : vscode.TextEditor) (now : Z) :
  wellFormed (getInitialDocumentHistory editor now).
Proof. split; simpl; [unfold MAX_STACK_SIZE; lia | apply noRepeat_nil]. Qed.

Lemma wellFormed_recorded
    (h : DocumentHistory) (sels : list vscode.Selection) (ver now : Z) (commit : bool) :
  wellFormed h → wellFormed (recorded h sels ver now commit).
Proof.
  intros [Hlen Hnr]. destruct commit; split; simpl; try assumption.
  - rewrite Nat.add_0_r. apply length_trim_bound.
    pose proof (length_dedupPush_le (undoStack h) (lastSelections (selectionsHistory h))). lia.
  - apply noRepeat_trim, noRepeat_dedupPush, Hnr.
Qed.

(** The history after the pop and the push of an undo. *)
Lemma wellFormed_undone
    (h : DocumentHistory) (item : UndoItem) (live : list vscode.Selection) :
  wellFormed h → last (undoStack h) = Some item →
  wellFormed (set_redoStack (set_undoStack h (removelast (undoStack h)))
                (dedupPush (redoStack h) live)).
Proof.
  intros [Hlen Hnr] Hlast. pose proof (length_removelast_snoc _ _ Hlast) as Hsnoc.
  split; simpl.
  - pose proof (length_dedupPush_le (redoStack h) live).
    rewrite Hsnoc, length_app in Hlen. simpl in Hlen. lia.
  - rewrite Hsnoc in Hnr. eapply noRepeat_prefix. exact Hnr.
Qed.

(** The history after the pop and the push of a redo. *)
Lemma wellFormed_redone
    (h : DocumentHistory) (item : UndoItem) (live : list vscode.Selection) :
  wellFormed h → last (redoStack h) = Some item →
  wellFormed (set_undoStack (set_redoStack h (removelast (redoStack h)))
                (dedupPush (undoStack h) live)).
Proof.
  intros [Hlen Hnr] Hlast. pose proof (length_removelast_snoc _ _ Hlast) as Hsnoc.
  split; simpl.
  - pose proof (length_dedupPush_le (undoStack h) live).
    rewrite Hsnoc, length_app in Hlen. simpl in Hlen. lia.
  - apply noRepeat_dedupPush, Hnr.
Qed.

Lemma wellFormed_same_stacks (h h' : DocumentHistory) :
  undoStack h' = undoStack h → redoStack h' = redoStack h →
  wellFormed h → wellFormed h'.
Proof. unfold wellFormed. intros -> ->. trivial. Qed.

Lemma initiateUndoHistory_wellFormed
    (editor : option vscode.TextEditor) (now : Z) (table : gmap string DocumentHistory) :
  map_Forall (λ _, wellFormed) table →
  map_Forall (λ _, wellFormed) (initiateUndoHistory editor now table).
Proof.
  intros Hinv. unfold initiateUndoHistory. destruct editor as [editor|]; [|assumption].
  destruct (table !! _); [assumption|].
  apply map_Forall_insert_2; [apply wellFormed_initial | assumption].
Qed.

Lemma cursorUndo_wellFormed
    (editor : option vscode.TextEditor) (now : Z) (table : gmap string DocumentHistory) :
  map_Forall (λ _, wellFormed) table →
  map_Forall (λ _, wellFormed) (documentsHistory (cursorUndo editor now table)).
Proof.
  intros Hinv. unfold cursorUndo. destruct editor as [editor|]; [|assumption].
  set (table1 := match table !! _ with
                 | None => initiateUndoHistory (Some editor) now table
                 | Some _ => table
                 end).
  assert (Hinv1 : map_Forall (λ _, wellFormed) table1).
  { subst table1. destruct (table !! _); [assumption|].
    apply initiateUndoHistory_wellFormed, Hinv. }
  clearbody table1.
  destruct (table1 !! _) as [h|] eqn:Hh; [|assumption].
  pose proof (map_Forall_lookup_1 _ _ _ _ Hinv1 Hh) as Hwf.
  destruct (last (undoStack h)) as [item|] eqn:Hlast; [|assumption].
  rewrite pushIntoRedoStack_spec.
  pose proof (wellFormed_undone h item (vscode.selections editor) Hwf Hlast) as Hwf'.
  destruct (revealActiveCursor _); simpl; apply map_Forall_insert_2; assumption.
Qed.

Lemma cursorRedo_wellFormed
    (editor : option vscode.TextEditor) (table : gmap string DocumentHistory) :
  map_Forall (λ _, wellFormed) table →
  map_Forall (λ _, wellFormed) (documentsHistory (cursorRedo editor table)).
Proof.
  intros Hinv. unfold cursorRedo. destruct editor as [editor|]; [|assumption].
  destruct (table !! _) as [h|] eqn:Hh; [|assumption].
  pose proof (map_Forall_lookup_1 _ _ _ _ Hinv Hh) as Hwf.
  destruct (last (redoStack h)) as [item|] eqn:Hlast; [|assumption].
  rewrite pushIntoUndoStack_spec.
  pose proof (wellFormed_redone h item (vscode.selections editor) Hwf Hlast) as Hwf'.
  destruct (revealActiveCursor _); simpl; apply map_Forall_insert_2; assumption.
Qed.

Lemma handleSelectionChange_wellFormed
    (e : vscode.TextEditorSelectionChangeEvent) (timestamp : Z)
    (table : gmap string DocumentHistory) :
  map_Forall (λ _, wellFormed) table →
  map_Forall (λ _, wellFormed) (handleSelectionChange e timestamp table).2.
Proof.
  intros Hinv.
  destruct (table !! eventDocumentId e) as [h|] eqn:Hh.
  - pose proof (map_Forall_lookup_1 _ _ _ _ Hinv Hh) as Hwf.
    destruct (Z_gt_le_dec (undoRedoCounter h) 0) as [Hc|Hc].
    + rewrite (handleSelectionChange_suppressed table e timestamp h Hh Hc); simpl.
      apply map_Forall_insert_2; [|assumption].
      eapply wellFormed_same_stacks; [| |exact Hwf]; reflexivity.
    + destruct (handleSelectionChange_unsuppressed table e timestamp h Hh Hc)
        as (sig & _ & ->); simpl.
      apply map_Forall_insert_2; [|assumption]. apply wellFormed_recorded, Hwf.
  - unfold handleSelectionChange. unfold eventDocumentId in Hh. rewrite Hh. assumption.
Qed.

Lemma after_wellFormed (table : gmap string DocumentHistory) (c : Call) :
  map_Forall (λ _, wellFormed) table → map_Forall (λ _, wellFormed) (after table c).
Proof.
  intros Hinv. destruct c; simpl.
  - apply initiateUndoHistory_wellFormed, Hinv.
  - apply cursorUndo_wellFormed, Hinv.
  - apply cursorRedo_wellFormed, Hinv.
  - apply handleSelectionChange_wellFormed, Hinv.
Qed.

Lemma run_snoc (calls : list Call) (c : Call) : run (calls ++ [c]) = after (run calls) c.
Proof. unfold run. apply foldl_snoc. Qed.

Lemma run_wellFormed (calls : list Call) : map_Forall (λ _, wellFormed) (run calls).
Proof.
  induction calls as [|c calls IH] using rev_ind.
  - apply map_Forall_empty.
  - rewrite run_snoc. apply after_wellFormed, IH.
Qed.

(** ** The bound on the undo stack *)

(** C3. In every table reached from the empty one by any sequence of calls
    of the two listeners and the two commands, with any arguments, every
    document's undo stack has at most 999 entries; so it has after a further
    [cursorRedo], which pushes without trimming.  And when an unsuppressed
    event that is due to commit finds the stack full and its push is not
    skipped, the stack afterwards is the old one without its oldest entry,
    followed by the new entry. *)
Theorem undoStack_never_exceeds_bound
    (calls : list Call) (d : string) (h : DocumentHistory) :
  run calls !! d = Some h →
  length (undoStack h) ≤ 999
  ∧ (∀ editor h',
       documentsHistory (cursorRedo editor (run calls)) !! d = Some h' →
       length (undoStack h') ≤ 999)
  ∧ (∀ e timestamp,
       eventDocumentId e = d →
       (undoRedoCounter h ≤ 0)%Z →
       ((timestamp - lastSelectionsTimestamp h > 4000)%Z
        ∨ isLastSelectionsChangeSignificant (selectionsHistory h)
            (vscode.event_selections e) (eventVersion e) = Some true) →
       length (undoStack h) = 999 →
       (¬ ∃ top, last (undoStack h) = Some top
                 ∧ Forall2 sameEnds (lastSelections (selectionsHistory h)) (selections top)) →
       ∃ h', (handleSelectionChange e timestamp (run calls)).2 !! d = Some h'
             ∧ undoStack h' =
               tail (undoStack h) ++ [mkUndoItem (lastSelections (selectionsHistory h))]
             ∧ length (undoStack h') = 999).
Proof.
  intros Hh.
  assert (Hbound : ∀ calls' h', run calls' !! d = Some h' → length (undoStack h') ≤ 999).
  { intros calls' h' Hh'.
    destruct (map_Forall_lookup_1 _ _ _ _ (run_wellFormed calls') Hh') as [Hlen _].
    unfold MAX_STACK_SIZE in Hlen. lia. }
  split; [exact (Hbound calls h Hh)|]. split.
  - intros editor h' Hh'. apply (Hbound (calls ++ [CallCursorRedo editor])).
    rewrite run_snoc. exact Hh'.
  - intros e timestamp <- Hc Hdue Hfull Hnew.
    destruct (handleSelectionChange_unsuppressed (run calls) e timestamp h Hh Hc)
      as (sig & Hsig & ->); simpl.
    eexists. split; [apply lookup_insert_eq|].
    assert (Hcommit : (timestamp - lastSelectionsTimestamp h >? FOUR_SECONDS)%Z || sig = true).
    { apply orb_true_iff. destruct Hdue as [Ht|Hs].
      - left. unfold FOUR_SECONDS. apply Z.gtb_lt. lia.
      - right. congruence. }
    unfold recorded. rewrite Hcommit. simpl.
    destruct (dedupPush_cases (undoStack h) (lastSelections (selectionsHistory h)))
      as [[_ Htop]|[-> _]]; [contradiction|].
    unfold trim. rewrite length_app, Hfull. simpl.
    destruct (undoStack h) as [|x stack]; [discriminate|].
    simpl in *. rewrite length_app. simpl. split; [reflexivity|lia].
Qed.

Lemma undoStack_never_exceeds_bound_witness :
  ∃ h h',
    run fillingCalls !! "file:///sample.txt" = Some h
    ∧ length (undoStack h) = 999
    ∧ (handleSelectionChange (eventWith [cursorAt 1000 0]) 5000000 (run fillingCalls)).2
        !! "file:///sample.txt" = Some h'
    ∧ undoStack h' = tail (undoStack h) ++ [mkUndoItem [cursorAt 999 0]]
    ∧ length (undoStack h') = 999.
Proof.
  assert (Hfacts :
    match run fillingCalls !! "file:///sample.txt" with
    | Some h =>
      bool_decide (length (undoStack h) = 999
                   ∧ lastSelections (selectionsHistory h) = [cursorAt 999 0]
                   ∧ last (undoStack h) = Some (mkUndoItem [cursorAt 998 0])
                   ∧ lastSelectionsTimestamp h = 4995000%Z
                   ∧ undoRedoCounter h = 0%Z)
    | None => false
    end = true) by (vm_compute; reflexivity).
  destruct (run fillingCalls !! "file:///sample.txt") as [h|] eqn:Hh; [|discriminate].
  apply bool_decide_eq_true in Hfacts. destruct Hfacts as (Hfull & Hlast & Htop & Hts & Hcount).
  destruct (undoStack_never_exceeds_bound fillingCalls "file:///sample.txt" h Hh)
    as (_ & _ & Hevict).
  destruct (Hevict (eventWith [cursorAt 1000 0]) 5000000%Z) as (h' & Hh' & Hstack & Hlen).
  - reflexivity.
  - lia.
  - left. lia.
  - exact Hfull.
  - intros (top & Htop' & Hsame). rewrite Htop in Htop'. injection Htop' as <-.
    rewrite Hlast in Hsame. simpl in Hsame.
    apply Forall2_cons_1 in Hsame. destruct Hsame as [[Hs _] _]. discriminate Hs.
  - exists h, h'. rewrite Hlast in Hstack.
    split; [reflexivity|]. split; [exact Hfull|]. split; [exact Hh'|].
    split; [exact Hstack | exact Hlen].
Defined.

(** ** The first event after the window is reset *)

Lemma deliver_suppressed (d : string)
    (events : list (vscode.TextEditorSelectionChangeEvent * Z)) :
  ∀ (table : gmap string DocumentHistory) (h : DocumentHistory),
    table !! d = Some h →
    Forall (λ ev, eventDocumentId ev.1 = d) events →
    length events ≤ Z.to_nat (undoRedoCounter h) →
    ∃ h', deliver events table !! d = Some h'
          ∧ undoRedoCounter h' = (undoRedoCounter h - Z.of_nat (length events))%Z
          ∧ undoStack h' = undoStack h
          ∧ redoStack h' = redoStack h
          ∧ selectionsHistory h' = selectionsHistory h
          ∧ lastSelectionsTimestamp h' = lastSelectionsTimestamp h.
Proof.
  induction events as [|[e ts] events IH]; intros table h Hh Hall Hlen.
  - exists h. simpl. repeat split; [assumption|lia].
  - apply Forall_cons in Hall. destruct Hall as [He Hall]. simpl in He, Hlen.
    subst d. unfold deliver; simpl. fold (deliver events).
    assert (Hc : (undoRedoCounter h > 0)%Z) by lia.
    rewrite (handleSelectionChange_suppressed table e ts h Hh Hc); simpl.
    destruct (IH (<[eventDocumentId e := set_undoRedoCounter h (undoRedoCounter h - 1)]> table)
                (set_undoRedoCounter h (undoRedoCounter h - 1)))
      as (h' & Hh' & Hc' & Hrest).
    + apply lookup_insert_eq.
    + exact Hall.
    + simpl. lia.
    + exists h'. split; [exact Hh'|]. split; [|exact Hrest].
      rewrite Hc'. cbn [length undoRedoCounter set_undoRedoCounter]. lia.
Qed.

(** After as many suppressed events as the counter tells, the next event on
    a window with an empty previous list and a non-empty last list commits,
    subject to the guard of the push and to trimming. *)
Lemma next_event_on_fresh_window
    (table : gmap string DocumentHistory) (h : DocumentHistory)
    (events : list (vscode.TextEditorSelectionChangeEvent * Z))
    (e : vscode.TextEditorSelectionChangeEvent) (timestamp : Z) :
  table !! eventDocumentId e = Some h →
  Forall (λ ev, eventDocumentId ev.1 = eventDocumentId e) events →
  length events = Z.to_nat (undoRedoCounter h) →
  previousOfLastSelections (selectionsHistory h) = [] →
  lastSelections (selectionsHistory h) ≠ [] →
  ∃ h2,
    handleSelectionChange e timestamp (deliver events table)
    = (Returned, <[eventDocumentId e := h2]> (deliver events table))
    ∧ undoStack h2 = trim (dedupPush (undoStack h) (lastSelections (selectionsHistory h)))
    ∧ redoStack h2 = [].
Proof.
  intros Hh Hall Hlen Hprev Hlast.
  destruct (deliver_suppressed _ events table h Hh Hall ltac:(lia))
    as (h' & Hh' & Hc' & Hu & Hr & Hw & Ht).
  destruct (handleSelectionChange_unsuppressed _ e timestamp h' Hh' ltac:(lia))
    as (sig & Hsig & ->).
  destruct (isLastSelectionsChangeSignificant_cases (selectionsHistory h')
              (vscode.event_selections e) (eventVersion e)) as (b & Hb & Hrules).
  rewrite Hsig in Hb. injection Hb as <-.
  assert (sig = true) as ->.
  { apply Hrules. right; left. unfold rule2. rewrite Hw, Hprev.
    destruct (lastSelections (selectionsHistory h)); [contradiction|discriminate]. }
  rewrite orb_true_r. eexists. split; [reflexivity|].
  simpl. rewrite Hu, Hw. split; reflexivity.
Qed.

Lemma revealActiveCursor_keeps (editor editor' : vscode.TextEditor) :
  revealActiveCursor editor = Some editor' →
  vscode.selections editor' = vscode.selections editor
  ∧ vscode.document editor' = vscode.document editor
  ∧ vscode.selections editor ≠ [].
Proof.
  intros Hrev. destruct (vscode.selection editor) as [sel|] eqn:Hsel.
  - rewrite (revealActiveCursor_decision editor sel Hsel) in Hrev.
    assert (vscode.selections editor ≠ []) as Hne.
    { unfold vscode.selection in Hsel. intros E. rewrite E in Hsel. discriminate. }
    injection Hrev as <-.
    destruct (existsb _ _); [auto|]. destruct (existsb _ _); simpl; auto.
  - rewrite (revealActiveCursor_throws editor Hsel) in Hrev. discriminate.
Qed.

Lemma trim_id (stack : list UndoItem) : length stack ≤ MAX_STACK_SIZE → trim stack = stack.
Proof.
  intros H. unfold trim. destruct (Nat.ltb_spec MAX_STACK_SIZE (length stack)); [lia|reflexivity].
Qed.

(** What a successful undo leaves in the table. *)
Lemma cursorUndo_returned
    (table : gmap string DocumentHistory) (editor : vscode.TextEditor) (now : Z)
    (h : DocumentHistory) (item : UndoItem) :
  table !! getDocumentId (vscode.document editor) = Some h →
  last (undoStack h) = Some item →
  completion (cursorUndo (Some editor) now table) = Returned →
  selections item ≠ []
  ∧ documentsHistory (cursorUndo (Some editor) now table)
      !! getDocumentId (vscode.document editor)
    = Some {| selectionsHistory :=
                {| previousOfLastSelections := [];
                   previousOfLastDocumentVersion := vscode.version (vscode.document editor);
                   lastSelections := selections item;
                   lastDocumentVersion := vscode.version (vscode.document editor) |};
              undoStack := removelast (undoStack h);
              redoStack := dedupPush (redoStack h) (vscode.selections editor);
              lastSelectionsTimestamp := lastSelectionsTimestamp h;
              undoRedoCounter := undoRedoCounter h + 1 |}.
Proof.
  intros Hh Hlast. unfold cursorUndo. rewrite Hh, Hh, Hlast, pushIntoRedoStack_spec.
  destruct (revealActiveCursor _) as [editor'|] eqn:Hrev; simpl; [|discriminate].
  intros _. destruct (revealActiveCursor_keeps _ _ Hrev) as (Hsels & Hdoc & Hne).
  simpl in Hsels, Hdoc, Hne. split; [exact Hne|].
  rewrite lookup_insert_eq. unfold getInitialSelectionsHistory, set_selectionsHistory.
  simpl. rewrite Hsels, Hdoc. reflexivity.
Qed.

(** What a successful redo leaves in the table. *)
Lemma cursorRedo_returned
    (table : gmap string DocumentHistory) (editor : vscode.TextEditor)
    (h : DocumentHistory) (item : UndoItem) :
  table !! getDocumentId (vscode.document editor) = Some h →
  last (redoStack h) = Some item →
  completion (cursorRedo (Some editor) table) = Returned →
  selections item ≠ []
  ∧ documentsHistory (cursorRedo (Some editor) table)
      !! getDocumentId (vscode.document editor)
    = Some {| selectionsHistory :=
                {| previousOfLastSelections := [];
                   previousOfLastDocumentVersion := vscode.version (vscode.document editor);
                   lastSelections := selections item;
                   lastDocumentVersion := vscode.version (vscode.document editor) |};
              undoStack := dedupPush (undoStack h) (vscode.selections editor);
              redoStack := removelast (redoStack h);
              lastSelectionsTimestamp := lastSelectionsTimestamp h;
              undoRedoCounter := undoRedoCounter h + 1 |}.
Proof.
  intros Hh Hlast. unfold cursorRedo. rewrite Hh, Hlast, pushIntoUndoStack_spec.
  destruct (revealActiveCursor _) as [editor'|] eqn:Hrev; simpl; [|discriminate].
  intros _. destruct (revealActiveCursor_keeps _ _ Hrev) as (Hsels & Hdoc & Hne).
  simpl in Hsels, Hdoc, Hne. split; [exact Hne|].
  rewrite lookup_insert_eq. unfold getInitialSelectionsHistory, set_selectionsHistory.
  simpl. rewrite Hsels, Hdoc. reflexivity.
Qed.

(** C10, as stated, fails after a redo.  The undo of [thereAndBackCalls]
    puts on the redo stack the selections the editor shows; the redo that
    follows returns normally, pushes them onto the undo stack and resets the
    window to them.  After the two suppressed events, the next event, though
    classified significant on a non-empty last list, finds that list on top
    of the undo stack and commits nothing. *)
Lemma after_redo_next_event_commits_nothing :
  let d := "file:///sample.txt" in
  let before := run thereAndBackCalls in
  let out := cursorRedo (Some (editorWith [cursorAt 0 0])) before in
  let table := deliver [(eventWith [cursorAt 0 0], 40%Z); (eventWith [cursorAt 0 0], 41%Z)]
                 (documentsHistory out) in
  let table' := (handleSelectionChange (eventWith [cursorAt 7 0]) 42 table).2 in
  (redoStack <$> before !! d) = Some [mkUndoItem [cursorAt 0 0]]
  ∧ completion out = Returned
  ∧ (selectionsHistory <$> documentsHistory out !! d)
    = Some {| previousOfLastSelections := [];
              previousOfLastDocumentVersion := 1;
              lastSelections := [cursorAt 0 0];
              lastDocumentVersion := 1 |}
  ∧ (undoRedoCounter <$> documentsHistory out !! d) = Some 2%Z
  ∧ (undoRedoCounter <$> table !! d) = Some 0%Z
  ∧ (selectionsHistory <$> table !! d) = (selectionsHistory <$> documentsHistory out !! d)
  ∧ (h ← table !! d;
     isLastSelectionsChangeSignificant (selectionsHistory h) [cursorAt 7 0] 1) = Some true
  ∧ (undoStack <$> table !! d) = Some [mkUndoItem [cursorAt 0 0]]
  ∧ (undoStack <$> table' !! d) = Some [mkUndoItem [cursorAt 0 0]]
  ∧ (redoStack <$> table' !! d) = Some [].
Proof.
  repeat split; vm_compute; reflexivity.
Qed.

(** C10, amended.  In a reachable table, right after a document's history
    is initialised, or its window reset by an undo or a redo that returned
    normally, the window's previous list is empty.  Then, once the
    suppressed events have been absorbed, the next event on that document,
    if the window's last list is not empty (it never is after an undo or a
    redo), returns normally and clears the redo stack.  After an
    initialisation or an undo it appends the window's last list to the undo
    stack as a new entry.  After a redo the push is subject to its guard and
    the stack to trimming. *)
Theorem fresh_window_next_event_commits
    (calls : list Call) (editor : vscode.TextEditor) (now : Z)
    (events : list (vscode.TextEditorSelectionChangeEvent * Z))
    (e : vscode.TextEditorSelectionChangeEvent) (timestamp : Z) :
  eventDocumentId e = getDocumentId (vscode.document editor) →
  Forall (λ ev, eventDocumentId ev.1 = getDocumentId (vscode.document editor)) events →
  (run calls !! getDocumentId (vscode.document editor) = None →
   ∃ h1,
     initiateUndoHistory (Some editor) now (run calls)
       !! getDocumentId (vscode.document editor) = Some h1
     ∧ previousOfLastSelections (selectionsHistory h1) = []
     ∧ (lastSelections (selectionsHistory h1) ≠ [] →
        length events = Z.to_nat (undoRedoCounter h1) →
        let table := deliver events (initiateUndoHistory (Some editor) now (run calls)) in
        ∃ h2,
          handleSelectionChange e timestamp table
          = (Returned, <[getDocumentId (vscode.document editor) := h2]> table)
          ∧ undoStack h2 = undoStack h1 ++ [mkUndoItem (lastSelections (selectionsHistory h1))]
          ∧ redoStack h2 = []))
  ∧ (∀ h item,
       run calls !! getDocumentId (vscode.document editor) = Some h →
       last (undoStack h) = Some item →
       completion (cursorUndo (Some editor) now (run calls)) = Returned →
       ∃ h1,
         documentsHistory (cursorUndo (Some editor) now (run calls))
           !! getDocumentId (vscode.document editor) = Some h1
         ∧ previousOfLastSelections (selectionsHistory h1) = []
         ∧ lastSelections (selectionsHistory h1) ≠ []
         ∧ (length events = Z.to_nat (undoRedoCounter h1) →
            let table :=
              deliver events (documentsHistory (cursorUndo (Some editor) now (run calls))) in
            ∃ h2,
              handleSelectionChange e timestamp table
              = (Returned, <[getDocumentId (vscode.document editor) := h2]> table)
              ∧ undoStack h2
                = undoStack h1 ++ [mkUndoItem (lastSelections (selectionsHistory h1))]
              ∧ redoStack h2 = []))
  ∧ (∀ h item,
       run calls !! getDocumentId (vscode.document editor) = Some h →
       last (redoStack h) = Some item →
       completion (cursorRedo (Some editor) (run calls)) = Returned →
       ∃ h1,
         documentsHistory (cursorRedo (Some editor) (run calls))
           !! getDocumentId (vscode.document editor) = Some h1
         ∧ previousOfLastSelections (selectionsHistory h1) = []
         ∧ lastSelections (selectionsHistory h1) ≠ []
         ∧ (length events = Z.to_nat (undoRedoCounter h1) →
            let table :=
              deliver events (documentsHistory (cursorRedo (Some editor) (run calls))) in
            ∃ h2,
              handleSelectionChange e timestamp table
              = (Returned, <[getDocumentId (vscode.document editor) := h2]> table)
              ∧ undoStack h2
                = trim (dedupPush (undoStack h1) (lastSelections (selectionsHistory h1)))
              ∧ redoStack h2 = [])).
Proof.
  intros He Hall. rewrite <- He in *. split; [|split].
  - intros Hnone. unfold initiateUndoHistory. rewrite <- He, Hnone.
    eexists. split; [apply lookup_insert_eq|]. split; [reflexivity|].
    intros Hlast Hlen.
    destruct (next_event_on_fresh_window
                (<[eventDocumentId e := getInitialDocumentHistory editor now]> (run calls))
                (getInitialDocumentHistory editor now) events e timestamp)
      as (h2 & Hrun & Hundo & Hredo); try assumption.
    + apply lookup_insert_eq.
    + reflexivity.
    + exists h2. split; [exact Hrun|]. split; [|exact Hredo].
      rewrite Hundo. reflexivity.
  - intros h item Hh Hlast Hret. rewrite He in Hh.
    destruct (cursorUndo_returned _ _ _ _ _ Hh Hlast Hret) as [Hne Hh1].
    rewrite <- He in Hh1.
    eexists. split; [exact Hh1|]. split; [reflexivity|]. split; [exact Hne|].
    intros Hlen.
    destruct (next_event_on_fresh_window _ _ events e timestamp Hh1 Hall Hlen eq_refl Hne)
      as (h2 & Hrun & Hundo & Hredo).
    exists h2. split; [exact Hrun|]. split; [|exact Hredo].
    rewrite Hundo. simpl.
    destruct (map_Forall_lookup_1 _ _ _ _ (run_wellFormed calls) Hh) as [Hbound Hnr].
    pose proof (length_removelast_snoc _ _ Hlast) as Hsnoc.
    destruct (dedupPush_cases (removelast (undoStack h)) (selections item))
      as [[_ (top & Htop & Hsame)]|[-> _]].
    + exfalso. rewrite Hsnoc in Hnr.
      rewrite last_lookup in Htop.
      apply (Hnr (pred (length (removelast (undoStack h)))) top item).
      * apply lookup_app_l_Some. exact Htop.
      * assert (removelast (undoStack h) ≠ []) as Hnonempty.
        { intros E. rewrite E in Htop. discriminate. }
        rewrite lookup_app_r.
        -- destruct (removelast (undoStack h)); [contradiction|].
           simpl. rewrite Nat.sub_diag. reflexivity.
        -- destruct (removelast (undoStack h)); [contradiction|]. simpl. lia.
      * exact Hsame.
    + apply trim_id. rewrite Hsnoc, length_app in Hbound. simpl in Hbound.
      rewrite length_app. simpl. lia.
  - intros h item Hh Hlast Hret. rewrite He in Hh.
    destruct (cursorRedo_returned _ _ _ _ Hh Hlast Hret) as [Hne Hh1].
    rewrite <- He in Hh1.
    eexists. split; [exact Hh1|]. split; [reflexivity|]. split; [exact Hne|].
    intros Hlen.
    destruct (next_event_on_fresh_window _ _ events e timestamp Hh1 Hall Hlen eq_refl Hne)
      as (h2 & Hrun & Hundo & Hredo).
    exists h2. split; [exact Hrun|]. split; [exact Hundo | exact Hredo].
Qed.

Lemma fresh_window_next_event_commits_witness :
  ∃ h2,
    handleSelectionChange (eventWith [cursorAt 9 0]) 40
      (deliver [(eventWith [cursorAt 0 0], 30%Z)] undoneTable)
    = (Returned,
       <["file:///sample.txt" := h2]> (deliver [(eventWith [cursorAt 0 0], 30%Z)] undoneTable))
    ∧ undoStack h2 = [mkUndoItem [cursorAt 0 0]]
    ∧ redoStack h2 = [].
Proof.
  destruct (fresh_window_next_event_commits movedCalls (editorWith [cursorAt 5 0]) 20
              [(eventWith [cursorAt 0 0], 30%Z)] (eventWith [cursorAt 9 0]) 40)
    as (_ & Hundo & _).
  - reflexivity.
  - repeat constructor.
  - edestruct Hundo as (h1 & Hh1 & _ & _ & Hnext).
    + vm_compute. reflexivity.
    + vm_compute. reflexivity.
    + vm_compute. reflexivity.
    + vm_compute in Hh1. injection Hh1 as <-.
      destruct Hnext as (h2 & Hrun & Hu & Hr); [reflexivity|].
      exists h2. split; [exact Hrun|]. split; [exact Hu | exact Hr].
Defined.

(** * Further properties of the code *)

(** ** Errors and frames *)

Lemma handleSelectionChange_no_history
    (table : gmap string DocumentHistory) (e : vscode.TextEditorSelectionChangeEvent)
    (timestamp : Z) :
  table !! eventDocumentId e = None →
  handleSelectionChange e timestamp table = (Thrown, table).
Proof.
  intros Hh. unfold handleSelectionChange. unfold eventDocumentId in Hh. rewrite Hh.
  reflexivity.
Qed.

(** X1. The selection-change listener throws exactly when the document has
    no history, and a call that throws leaves the table as it was: with a
    history, neither the classifier nor the push can throw. *)
Theorem handleSelectionChange_throws_iff_no_history
    (table : gmap string DocumentHistory) (e : vscode.TextEditorSelectionChangeEvent)
    (timestamp : Z) :
  ((handleSelectionChange e timestamp table).1 = Thrown
   ↔ table !! eventDocumentId e = None)
  ∧ ((handleSelectionChange e timestamp table).1 = Thrown
     → (handleSelectionChange e timestamp table).2 = table).
Proof.
  destruct (table !! eventDocumentId e) as [h|] eqn:Hh.
  - assert (Hret : (handleSelectionChange e timestamp table).1 = Returned).
    { destruct (Z_gt_le_dec (undoRedoCounter h) 0) as [Hc|Hc].
      - rewrite (handleSelectionChange_suppressed table e timestamp h Hh Hc). reflexivity.
      - destruct (handleSelectionChange_unsuppressed table e timestamp h Hh Hc)
          as (sig & _ & ->). reflexivity. }
    rewrite Hret. split; [split|]; discriminate.
  - rewrite (handleSelectionChange_no_history table e timestamp Hh). simpl.
    split; [split|]; reflexivity.
Qed.

Lemma cursorUndo_frame
    (editor : vscode.TextEditor) (now : Z) (table : gmap string DocumentHistory) (d : string) :
  getDocumentId (vscode.document editor) ≠ d →
  documentsHistory (cursorUndo (Some editor) now table) !! d = table !! d.
Proof.
  intros Hd. unfold cursorUndo, initiateUndoHistory.
  destruct (table !! getDocumentId (vscode.document editor)) as [h|] eqn:Hh.
  - rewrite Hh. destruct (last (undoStack h)); [|reflexivity].
    rewrite pushIntoRedoStack_spec.
    destruct (revealActiveCursor _); simpl; apply lookup_insert_ne; assumption.
  - rewrite lookup_insert_eq. simpl. apply lookup_insert_ne; assumption.
Qed.

Lemma cursorRedo_frame
    (editor : vscode.TextEditor) (table : gmap string DocumentHistory) (d : string) :
  getDocumentId (vscode.document editor) ≠ d →
  documentsHistory (cursorRedo (Some editor) table) !! d = table !! d.
Proof.
  intros Hd. unfold cursorRedo.
  destruct (table !! getDocumentId (vscode.document editor)) as [h|]; [|reflexivity].
  destruct (last (redoStack h)); [|reflexivity].
  rewrite pushIntoUndoStack_spec.
  destruct (revealActiveCursor _); simpl; apply lookup_insert_ne; assumption.
Qed.

Lemma handleSelectionChange_frame
    (e : vscode.TextEditorSelectionChangeEvent) (timestamp : Z)
    (table : gmap string DocumentHistory) (d : string) :
  eventDocumentId e ≠ d →
  (handleSelectionChange e timestamp table).2 !! d = table !! d.
Proof.
  intros Hd. destruct (table !! eventDocumentId e) as [h|] eqn:Hh.
  - destruct (Z_gt_le_dec (undoRedoCounter h) 0) as [Hc|Hc].
    + rewrite (handleSelectionChange_suppressed table e timestamp h Hh Hc). simpl.
      apply lookup_insert_ne; assumption.
    + destruct (handleSelectionChange_unsuppressed table e timestamp h Hh Hc)
        as (sig & _ & ->). simpl. apply lookup_insert_ne; assumption.
  - rewrite (handleSelectionChange_no_history table e timestamp Hh). reflexivity.
Qed.

Lemma after_frame
    (table : gmap string DocumentHistory) (c : Call) (d : string) :
  callDocument c ≠ Some d →
  after table c !! d = table !! d.
Proof.
  intros Hd. destruct c as [[editor|] now|[editor|] now|[editor|]|e timestamp];
    simpl in *; try reflexivity.
  - unfold initiateUndoHistory. destruct (table !! _); [reflexivity|].
    apply lookup_insert_ne. congruence.
  - apply cursorUndo_frame. congruence.
  - apply cursorRedo_frame. congruence.
  - apply handleSelectionChange_frame. congruence.
Qed.

(** X2. Calls read and write the history of their own document only: after
    any sequence of calls none of which is about document [d], a call
    without an editor being about none, the entry of [d] is what it was. *)
Theorem calls_leave_other_documents_alone
    (table : gmap string DocumentHistory) (calls : list Call) (d : string) :
  Forall (λ c, callDocument c ≠ Some d) calls →
  foldl after table calls !! d = table !! d.
Proof.
  revert table. induction calls as [|c calls IH]; intros table Hall; [reflexivity|].
  apply Forall_cons in Hall. destruct Hall as [Hc Hall]. simpl.
  rewrite (IH _ Hall). apply after_frame. exact Hc.
Qed.

Lemma calls_leave_other_documents_alone_witness :
  foldl after openedTable
    [CallHandleSelectionChange
       (vscode.mkEvent (vscode.mkTextEditor unevenDocument [cursorAt 1 0] [] []) [cursorAt 1 0]) 5;
     CallCursorUndo None 6;
     CallCursorUndo (Some editorBelowView) 7]
    !! "file:///sample.txt"
  = openedTable !! "file:///sample.txt".
Proof.
  apply calls_leave_other_documents_alone.
  repeat constructor; simpl; discriminate.
Defined.

Lemma after_keeps_entries
    (table : gmap string DocumentHistory) (c : Call) (d : string) :
  is_Some (table !! d) → is_Some (after table c !! d).
Proof.
  intros Hsome.
  destruct (decide (callDocument c = Some d)) as [Hc|Hc];
    [|rewrite (after_frame table c d Hc); exact Hsome].
  destruct c as [[editor|] now|[editor|] now|[editor|]|e timestamp];
    simpl in *; try discriminate; injection Hc as Hc; subst d.
  - unfold initiateUndoHistory. destruct (table !! _) eqn:E; [rewrite E; eauto|].
    rewrite lookup_insert_eq. eauto.
  - destruct Hsome as [h Hh]. unfold cursorUndo. rewrite Hh, Hh.
    destruct (last (undoStack h)); [|simpl; rewrite Hh; eauto].
    rewrite pushIntoRedoStack_spec.
    destruct (revealActiveCursor _); simpl; rewrite lookup_insert_eq; eauto.
  - destruct Hsome as [h Hh]. unfold cursorRedo. rewrite Hh.
    destruct (last (redoStack h)); [|simpl; rewrite Hh; eauto].
    rewrite pushIntoUndoStack_spec.
    destruct (revealActiveCursor _); simpl; rewrite lookup_insert_eq; eauto.
  - destruct Hsome as [h Hh].
    destruct (Z_gt_le_dec (undoRedoCounter h) 0) as [Hcn|Hcn].
    + rewrite (handleSelectionChange_suppressed table e timestamp h Hh Hcn). simpl.
      rewrite lookup_insert_eq. eauto.
    + destruct (handleSelectionChange_unsuppressed table e timestamp h Hh Hcn)
        as (sig & _ & ->). simpl. rewrite lookup_insert_eq. eauto.
Qed.

(** X3. A history is never removed: a document that has an entry in the
    table has one after any sequence of calls. *)
Theorem histories_are_never_removed
    (table : gmap string DocumentHistory) (calls : list Call) (d : string) :
  is_Some (table !! d) → is_Some (foldl after table calls !! d).
Proof.
  revert table. induction calls as [|c calls IH]; intros table Hsome; [exact Hsome|].
  simpl. apply IH. apply after_keeps_entries. exact Hsome.
Qed.

Lemma histories_are_never_removed_witness :
  is_Some (foldl after openedTable
             [CallCursorRedo (Some (editorWith [cursorAt 2 0]));
              CallHandleSelectionChange (eventWith [cursorAt 3 0]) 9]
             !! "file:///sample.txt").
Proof.
  apply histories_are_never_removed. vm_compute. eauto.
Defined.

(** X4. The first initiation wins: initiating the history of a document that
    has one changes nothing, whatever the editor shows by then, so a second
    initiation for the same document is without effect. *)
Theorem initiateUndoHistory_keeps_existing
    (table : gmap string DocumentHistory) (editor1 editor2 : vscode.TextEditor)
    (now1 now2 : Z) :
  getDocumentId (vscode.document editor2) = getDocumentId (vscode.document editor1) →
  initiateUndoHistory (Some editor2) now2 (initiateUndoHistory (Some editor1) now1 table)
  = initiateUndoHistory (Some editor1) now1 table
  ∧ (∀ h, table !! getDocumentId (vscode.document editor1) = Some h →
          initiateUndoHistory (Some editor2) now2 table = table).
Proof.
  intros Hid. split.
  - unfold initiateUndoHistory at 1. rewrite Hid.
    assert (is_Some (initiateUndoHistory (Some editor1) now1 table
                       !! getDocumentId (vscode.document editor1))) as [h Hh].
    { unfold initiateUndoHistory.
      destruct (table !! getDocumentId (vscode.document editor1)) eqn:E.
      - rewrite E. eauto.
      - rewrite lookup_insert_eq. eauto. }
    rewrite Hh. reflexivity.
  - intros h Hh. unfold initiateUndoHistory. rewrite Hid, Hh. reflexivity.
Qed.

Lemma initiateUndoHistory_keeps_existing_witness :
  initiateUndoHistory (Some (editorWith [cursorAt 8 8])) 99 openedTable = openedTable.
Proof.
  destruct (initiateUndoHistory_keeps_existing ∅ (editorWith [cursorAt 0 0])
              (editorWith [cursorAt 8 8]) 0 99 eq_refl) as [Htwice _].
  exact Htwice.
Defined.

(** ** What a reveal, an undo and a redo do *)

Lemma revealActiveCursor_revealedFrom (editor editor' : vscode.TextEditor) :
  revealActiveCursor editor = Some editor' → revealedFrom editor editor'.
Proof.
  intros Hrev. destruct (vscode.selection editor) as [sel|] eqn:Hsel.
  - rewrite (revealActiveCursor_decision editor sel Hsel) in Hrev. injection Hrev as <-.
    unfold revealedFrom.
    destruct (existsb _ _); [auto|].
    destruct (existsb _ _); simpl; repeat split; right; eauto.
  - rewrite (revealActiveCursor_throws editor Hsel) in Hrev. discriminate.
Qed.

Lemma revealActiveCursor_returns (editor : vscode.TextEditor) :
  vscode.selections editor ≠ [] →
  ∃ editor', revealActiveCursor editor = Some editor'.
Proof.
  intros Hne. destruct (vscode.selection editor) as [sel|] eqn:Hsel.
  - rewrite (revealActiveCursor_decision editor sel Hsel). eauto.
  - unfold vscode.selection in Hsel. destruct (vscode.selections editor); [contradiction|].
    discriminate.
Qed.

(** X5. A reveal throws exactly when the editor has no selection.  Otherwise
    it leaves the selections, the document and the visible ranges alone and
    issues at most one reveal command, for the empty range at the active
    position of the first selection; it issues none when a visible range
    contains that position. *)
Theorem revealActiveCursor_effect (editor : vscode.TextEditor) :
  (revealActiveCursor editor = None ↔ vscode.selections editor = [])
  ∧ (∀ editor', revealActiveCursor editor = Some editor' → revealedFrom editor editor')
  ∧ (∀ sel r, vscode.selection editor = Some sel →
              r ∈ vscode.visibleRanges editor →
              vscode.Range_contains r (vscode.active sel) = true →
              revealActiveCursor editor = Some editor).
Proof.
  split; [|split].
  - split.
    + intros Hnone. destruct (vscode.selections editor) as [|s l] eqn:E; [reflexivity|].
      destruct (revealActiveCursor_returns editor) as [editor' He]; [rewrite E; discriminate|].
      congruence.
    + intros E. apply revealActiveCursor_throws. unfold vscode.selection. rewrite E. reflexivity.
  - apply revealActiveCursor_revealedFrom.
  - intros sel r Hsel Hin Hcontains.
    rewrite (revealActiveCursor_decision editor sel Hsel).
    assert (existsb (λ r, vscode.Range_contains r (vscode.active sel))
              (vscode.visibleRanges editor) = true) as ->; [|reflexivity].
    apply existsb_exists. exists r. split; [|exact Hcontains].
    apply list_elem_of_In. exact Hin.
Qed.

Lemma cursorUndo_succeeds
    (table : gmap string DocumentHistory) (editor : vscode.TextEditor) (now : Z)
    (h : DocumentHistory) (item : UndoItem) :
  table !! getDocumentId (vscode.document editor) = Some h →
  last (undoStack h) = Some item →
  selections item ≠ [] →
  ∃ editor',
    cursorUndo (Some editor) now table
    = mkOutcome Returned
        (<[getDocumentId (vscode.document editor) :=
             undone h item (vscode.selections editor)
               (vscode.version (vscode.document editor))]> table)
        (Some editor')
    ∧ vscode.selections editor' = selections item
    ∧ revealedFrom (vscode.set_selections editor (selections item)) editor'.
Proof.
  intros Hh Hlast Hne.
  destruct (revealActiveCursor_returns (vscode.set_selections editor (selections item)) Hne)
    as [editor' Hrev].
  pose proof (revealActiveCursor_revealedFrom _ _ Hrev) as Hfrom.
  exists editor'. split; [|split; [apply Hfrom | exact Hfrom]].
  unfold cursorUndo. rewrite Hh, Hh, Hlast, pushIntoRedoStack_spec, Hrev.
  destruct Hfrom as (Hsels & Hdoc & _). simpl in Hsels, Hdoc.
  unfold undone, getInitialSelectionsHistory, set_selectionsHistory. simpl.
  rewrite Hsels, Hdoc. reflexivity.
Qed.

Lemma cursorRedo_succeeds
    (table : gmap string DocumentHistory) (editor : vscode.TextEditor)
    (h : DocumentHistory) (item : UndoItem) :
  table !! getDocumentId (vscode.document editor) = Some h →
  last (redoStack h) = Some item →
  selections item ≠ [] →
  ∃ editor',
    cursorRedo (Some editor) table
    = mkOutcome Returned
        (<[getDocumentId (vscode.document editor) :=
             redone h item (vscode.selections editor)
               (vscode.version (vscode.document editor))]> table)
        (Some editor')
    ∧ vscode.selections editor' = selections item
    ∧ revealedFrom (vscode.set_selections editor (selections item)) editor'.
Proof.
  intros Hh Hlast Hne.
  destruct (revealActiveCursor_returns (vscode.set_selections editor (selections item)) Hne)
    as [editor' Hrev].
  pose proof (revealActiveCursor_revealedFrom _ _ Hrev) as Hfrom.
  exists editor'. split; [|split; [apply Hfrom | exact Hfrom]].
  unfold cursorRedo. rewrite Hh, Hlast, pushIntoUndoStack_spec, Hrev.
  destruct Hfrom as (Hsels & Hdoc & _). simpl in Hsels, Hdoc.
  unfold redone, getInitialSelectionsHistory, set_selectionsHistory. simpl.
  rewrite Hsels, Hdoc. reflexivity.
Qed.

(** X6. An undo that finds a non-empty entry on top of the undo stack
    returns normally.  The editor then shows that entry's selections, on the
    same document and visible ranges, with at most one reveal issued.  In
    the table the entry is popped, the selections the editor showed are
    pushed onto the redo stack unless they repeat its top, the counter is
    one more, the window is reset to the restored selections with an empty
    previous list, and the timestamp is kept. *)
Theorem cursorUndo_restores_top_entry
    (table : gmap string DocumentHistory) (editor : vscode.TextEditor) (now : Z)
    (h : DocumentHistory) (item : UndoItem) :
  table !! getDocumentId (vscode.document editor) = Some h →
  last (undoStack h) = Some item →
  selections item ≠ [] →
  ∃ editor' h',
    cursorUndo (Some editor) now table
    = mkOutcome Returned (<[getDocumentId (vscode.document editor) := h']> table)
        (Some editor')
    ∧ vscode.selections editor' = selections item
    ∧ revealedFrom (vscode.set_selections editor (selections item)) editor'
    ∧ undoStack h = undoStack h' ++ [item]
    ∧ redoStack h' = dedupPush (redoStack h) (vscode.selections editor)
    ∧ undoRedoCounter h' = (undoRedoCounter h + 1)%Z
    ∧ lastSelectionsTimestamp h' = lastSelectionsTimestamp h
    ∧ selectionsHistory h' =
        {| previousOfLastSelections := [];
           previousOfLastDocumentVersion := vscode.version (vscode.document editor);
           lastSelections := selections item;
           lastDocumentVersion := vscode.version (vscode.document editor) |}.
Proof.
  intros Hh Hlast Hne.
  destruct (cursorUndo_succeeds table editor now h item Hh Hlast Hne)
    as (editor' & Hrun & Hsels & Hfrom).
  exists editor'. eexists. split; [exact Hrun|]. split; [exact Hsels|].
  split; [exact Hfrom|]. simpl.
  split; [apply length_removelast_snoc; exact Hlast|]. repeat split.
Qed.

Lemma cursorUndo_restores_top_entry_witness :
  ∃ editor',
    activeTextEditor (cursorUndo (Some (editorWith [cursorAt 5 0])) 20 (run movedCalls))
    = Some editor'
    ∧ vscode.selections editor' = [cursorAt 0 0].
Proof.
  edestruct (cursorUndo_restores_top_entry (run movedCalls) (editorWith [cursorAt 5 0]) 20)
    as (editor' & h' & Hrun & Hsels & _).
  - vm_compute. reflexivity.
  - vm_compute. reflexivity.
  - discriminate.
  - exists editor'. split; [rewrite Hrun; reflexivity | exact Hsels].
Defined.

(** X7. A redo that finds a non-empty entry on top of the redo stack
    returns normally.  The editor then shows that entry's selections, with
    at most one reveal issued.  In the table the entry is popped from the
    redo stack, the selections the editor showed are pushed onto the undo
    stack unless they repeat its top, without trimming, the counter is one
    more and the window is reset to the restored selections. *)
Theorem cursorRedo_restores_top_entry
    (table : gmap string DocumentHistory) (editor : vscode.TextEditor)
    (h : DocumentHistory) (item : UndoItem) :
  table !! getDocumentId (vscode.document editor) = Some h →
  last (redoStack h) = Some item →
  selections item ≠ [] →
  ∃ editor' h',
    cursorRedo (Some editor) table
    = mkOutcome Returned (<[getDocumentId (vscode.document editor) := h']> table)
        (Some editor')
    ∧ vscode.selections editor' = selections item
    ∧ revealedFrom (vscode.set_selections editor (selections item)) editor'
    ∧ redoStack h = redoStack h' ++ [item]
    ∧ undoStack h' = dedupPush (undoStack h) (vscode.selections editor)
    ∧ undoRedoCounter h' = (undoRedoCounter h + 1)%Z
    ∧ lastSelectionsTimestamp h' = lastSelectionsTimestamp h
    ∧ selectionsHistory h' =
        {| previousOfLastSelections := [];
           previousOfLastDocumentVersion := vscode.version (vscode.document editor);
           lastSelections := selections item;
           lastDocumentVersion := vscode.version (vscode.document editor) |}.
Proof.
  intros Hh Hlast Hne.
  destruct (cursorRedo_succeeds table editor h item Hh Hlast Hne)
    as (editor' & Hrun & Hsels & Hfrom).
  exists editor'. eexists. split; [exact Hrun|]. split; [exact Hsels|].
  split; [exact Hfrom|]. simpl.
  split; [apply length_removelast_snoc; exact Hlast|]. repeat split.
Qed.

Lemma cursorRedo_restores_top_entry_witness :
  ∃ editor',
    activeTextEditor (cursorRedo (Some (editorWith [cursorAt 0 0])) undoneTable)
    = Some editor'
    ∧ vscode.selections editor' = [cursorAt 5 0].
Proof.
  edestruct (cursorRedo_restores_top_entry undoneTable (editorWith [cursorAt 0 0]))
    as (editor' & h' & Hrun & Hsels & _).
  - vm_compute. reflexivity.
  - vm_compute. reflexivity.
  - discriminate.
  - exists editor'. split; [rewrite Hrun; reflexivity | exact Hsels].
Defined.

(** ** More of what every reachable table satisfies *)

Lemma noRepeat_removelast (stack : list UndoItem) :
  noRepeat stack → noRepeat (removelast stack).
Proof.
  intros Hs. destruct (last stack) as [x|] eqn:Hlast.
  - rewrite (length_removelast_snoc _ _ Hlast) in Hs. eapply noRepeat_prefix. exact Hs.
  - apply last_None in Hlast. subst stack. exact Hs.
Qed.

Lemma tidy_recorded
    (h : DocumentHistory) (sels : list vscode.Selection) (ver now : Z) (commit : bool) :
  tidy h → tidy (recorded h sels ver now commit).
Proof.
  intros (Hu & Hr & Hc). destruct commit; repeat split; simpl; try assumption.
  - apply noRepeat_trim, noRepeat_dedupPush, Hu.
  - apply noRepeat_nil.
Qed.

Lemma tidy_table_insert
    (table : gmap string DocumentHistory) (d : string) (h : DocumentHistory) :
  tidy h → map_Forall (λ _, tidy) table → map_Forall (λ _, tidy) (<[d := h]> table).
Proof. intros. apply map_Forall_insert_2; assumption. Qed.

Lemma after_tidy (table : gmap string DocumentHistory) (c : Call) :
  map_Forall (λ _, tidy) table → map_Forall (λ _, tidy) (after table c).
Proof.
  intros Hinv. destruct c as [[editor|] now|[editor|] now|[editor|]|e timestamp];
    simpl; try assumption.
  - unfold initiateUndoHistory. destruct (table !! _); [assumption|].
    apply tidy_table_insert; [|assumption].
    repeat split; simpl; [apply noRepeat_nil | apply noRepeat_nil | lia].
  - unfold cursorUndo, initiateUndoHistory.
    destruct (table !! getDocumentId (vscode.document editor)) as [h|] eqn:Hh.
    + rewrite Hh.
      destruct (map_Forall_lookup_1 _ _ _ _ Hinv Hh) as (Hu & Hr & Hc).
      destruct (last (undoStack h)); [|assumption].
      rewrite pushIntoRedoStack_spec.
      destruct (revealActiveCursor _); simpl; apply tidy_table_insert; try assumption;
        repeat split; simpl;
        try apply noRepeat_removelast; try apply noRepeat_dedupPush; try assumption; lia.
    + rewrite lookup_insert_eq. simpl.
      apply tidy_table_insert; [|assumption].
      repeat split; simpl; [apply noRepeat_nil | apply noRepeat_nil | lia].
  - unfold cursorRedo.
    destruct (table !! _) as [h|] eqn:Hh; [|assumption].
    destruct (map_Forall_lookup_1 _ _ _ _ Hinv Hh) as (Hu & Hr & Hc).
    destruct (last (redoStack h)); [|assumption].
    rewrite pushIntoUndoStack_spec.
    destruct (revealActiveCursor _); simpl; apply tidy_table_insert; try assumption;
      repeat split; simpl;
      try apply noRepeat_removelast; try apply noRepeat_dedupPush; try assumption; lia.
  - destruct (table !! eventDocumentId e) as [h|] eqn:Hh.
    + pose proof (map_Forall_lookup_1 _ _ _ _ Hinv Hh) as Ht.
      destruct (Z_gt_le_dec (undoRedoCounter h) 0) as [Hc|Hc].
      * rewrite (handleSelectionChange_suppressed table e timestamp h Hh Hc); simpl.
        apply tidy_table_insert; [|assumption].
        destruct Ht as (Hu & Hr & _). repeat split; simpl; try assumption. lia.
      * destruct (handleSelectionChange_unsuppressed table e timestamp h Hh Hc)
          as (sig & _ & ->); simpl.
        apply tidy_table_insert; [|assumption]. apply tidy_recorded, Ht.
    + rewrite (handleSelectionChange_no_history table e timestamp Hh). assumption.
Qed.

Lemma run_tidy (calls : list Call) : map_Forall (λ _, tidy) (run calls).
Proof.
  induction calls as [|c calls IH] using rev_ind.
  - apply map_Forall_empty.
  - rewrite run_snoc. apply after_tidy, IH.
Qed.

(** X8. In every reachable table the suppression counter of every document
    is zero or more: it is decremented only when positive. *)
Theorem undoRedoCounter_is_never_negative
    (calls : list Call) (d : string) (h : DocumentHistory) :
  run calls !! d = Some h → (0 ≤ undoRedoCounter h)%Z.
Proof.
  intros Hh. destruct (map_Forall_lookup_1 _ _ _ _ (run_tidy calls) Hh) as (_ & _ & Hc).
  exact Hc.
Qed.

Lemma undoRedoCounter_is_never_negative_witness :
  ∃ h, undoneTable !! "file:///sample.txt" = Some h ∧ (0 ≤ undoRedoCounter h)%Z.
Proof.
  destruct (undoneTable !! "file:///sample.txt") as [h|] eqn:Hh;
    [|vm_compute in Hh; discriminate].
  exists h. split; [reflexivity|].
  apply (undoRedoCounter_is_never_negative
           (movedCalls ++ [CallCursorUndo (Some (editorWith [cursorAt 5 0])) 20])
           "file:///sample.txt" h).
  exact Hh.
Defined.

(** X9. In every reachable table no entry of an undo stack or of a redo
    stack is equal, as [areSelectionsEqual] has it, to the entry just below
    it: the stacks hold no run of repeated selection lists. *)
Theorem stacks_never_repeat_an_entry
    (calls : list Call) (d : string) (h : DocumentHistory) :
  run calls !! d = Some h →
  (∀ i below above,
     undoStack h !! i = Some below → undoStack h !! S i = Some above →
     areSelectionsEqual (selections above) (selections below) = Some false)
  ∧ (∀ i below above,
     redoStack h !! i = Some below → redoStack h !! S i = Some above →
     areSelectionsEqual (selections above) (selections below) = Some false).
Proof.
  intros Hh. destruct (map_Forall_lookup_1 _ _ _ _ (run_tidy calls) Hh) as (Hu & Hr & _).
  split; intros i below above Hb Ha; rewrite areSelectionsEqual_spec; f_equal;
    apply bool_decide_eq_false; [exact (Hu i below above Hb Ha) | exact (Hr i below above Hb Ha)].
Qed.

Lemma stacks_never_repeat_an_entry_witness :
  areSelectionsEqual [cursorAt 5 0] [cursorAt 0 0] = Some false
  ∧ areSelectionsEqual [cursorAt 5 0] [cursorAt 9 0] = Some false.
Proof.
  split.
  - edestruct (stacks_never_repeat_an_entry twoMovesCalls "file:///sample.txt")
      as [Hundo _].
    + vm_compute. reflexivity.
    + apply (Hundo 0 (mkUndoItem [cursorAt 0 0]) (mkUndoItem [cursorAt 5 0]));
        reflexivity.
  - edestruct (stacks_never_repeat_an_entry twoUndosCalls "file:///sample.txt")
      as [_ Hredo].
    + vm_compute. reflexivity.
    + apply (Hredo 0 (mkUndoItem [cursorAt 9 0]) (mkUndoItem [cursorAt 5 0]));
        reflexivity.
Defined.

(** X10. In every reachable table the undo stack and the redo stack of a
    document hold at most 999 entries between them; the redo stack, which
    is never trimmed, therefore never holds more than 999 either. *)
Theorem both_stacks_together_are_bounded
    (calls : list Call) (d : string) (h : DocumentHistory) :
  run calls !! d = Some h →
  length (undoStack h) + length (redoStack h) ≤ 999
  ∧ length (redoStack h) ≤ 999.
Proof.
  intros Hh. destruct (map_Forall_lookup_1 _ _ _ _ (run_wellFormed calls) Hh) as [Hlen _].
  unfold MAX_STACK_SIZE in Hlen. lia.
Qed.

Lemma both_stacks_together_are_bounded_witness :
  ∃ h, undoneTable !! "file:///sample.txt" = Some h ∧ length (redoStack h) ≤ 999.
Proof.
  destruct (undoneTable !! "file:///sample.txt") as [h|] eqn:Hh;
    [|vm_compute in Hh; discriminate].
  exists h. split; [reflexivity|].
  apply (both_stacks_together_are_bounded
           (movedCalls ++ [CallCursorUndo (Some (editorWith [cursorAt 5 0])) 20])
           "file:///sample.txt" h).
  exact Hh.
Defined.

(** ** Round trips *)

Lemma sameEnds_refl (l : list vscode.Selection) : Forall2 sameEnds l l.
Proof. induction l; constructor; [split; reflexivity | assumption]. Qed.

Lemma sameEnds_sym (l1 l2 : list vscode.Selection) :
  Forall2 sameEnds l1 l2 → Forall2 sameEnds l2 l1.
Proof.
  induction 1 as [|x y l1 l2 [Hs He] _ IH]; constructor; [split; congruence | exact IH].
Qed.

Lemma sameEnds_trans (l1 l2 l3 : list vscode.Selection) :
  Forall2 sameEnds l1 l2 → Forall2 sameEnds l2 l3 → Forall2 sameEnds l1 l3.
Proof.
  intros H12. revert l3. induction H12 as [|x y l1 l2 [Hs He] _ IH]; intros l3 H23.
  - inversion H23. constructor.
  - inversion H23 as [|y' z l2' l3' [Hs' He'] Hrest]; subst.
    constructor; [split; congruence | apply IH; exact Hrest].
Qed.

(** Pushing back the entry just popped restores a stack without repeats. *)
Lemma dedupPush_removelast (stack : list UndoItem) (item : UndoItem) :
  noRepeat stack → last stack = Some item →
  dedupPush (removelast stack) (selections item) = stack.
Proof.
  intros Hnr Hlast. pose proof (length_removelast_snoc _ _ Hlast) as Hsnoc.
  destruct (dedupPush_cases (removelast stack) (selections item))
    as [[_ (top & Htop & Hsame)]|[-> _]].
  - exfalso. rewrite Hsnoc in Hnr. rewrite last_lookup in Htop.
    assert (removelast stack ≠ []) as Hnonempty.
    { intros E. rewrite E in Htop. discriminate. }
    apply (Hnr (pred (length (removelast stack))) top item).
    + apply lookup_app_l_Some. exact Htop.
    + rewrite lookup_app_r; destruct (removelast stack); try contradiction; simpl; [|lia].
      rewrite Nat.sub_diag. reflexivity.
    + exact Hsame.
  - destruct item as [sels]. simpl. symmetry. exact Hsnoc.
Qed.

Lemma last_dedupPush (stack : list UndoItem) (sels : list vscode.Selection) :
  ∃ top, last (dedupPush stack sels) = Some top
         ∧ Forall2 sameEnds sels (selections top)
         ∧ (dedupPush stack sels = stack ++ [mkUndoItem sels] → top = mkUndoItem sels).
Proof.
  destruct (dedupPush_cases stack sels) as [[-> (top & Htop & Hsame)]|[-> _]].
  - exists top. split; [exact Htop|]. split; [exact Hsame|].
    intros E. exfalso. eapply snoc_neq. symmetry. exact E.
  - exists (mkUndoItem sels). rewrite last_snoc. split; [reflexivity|].
    split; [apply sameEnds_refl | reflexivity].
Qed.

Lemma revealedFrom_document (editor editor' : vscode.TextEditor) (sels : list vscode.Selection) :
  revealedFrom (vscode.set_selections editor sels) editor' →
  vscode.document editor' = vscode.document editor.
Proof. intros (_ & Hdoc & _). exact Hdoc. Qed.

(** The state after an undo and the redo that follows it. *)
Lemma undo_then_redo
    (calls : list Call) (editor : vscode.TextEditor) (now : Z)
    (h : DocumentHistory) (item : UndoItem) :
  run calls !! getDocumentId (vscode.document editor) = Some h →
  last (undoStack h) = Some item →
  selections item ≠ [] →
  vscode.selections editor ≠ [] →
  ∃ editor1 editor2 item' h2,
    cursorUndo (Some editor) now (run calls)
    = mkOutcome Returned
        (<[getDocumentId (vscode.document editor) :=
             undone h item (vscode.selections editor)
               (vscode.version (vscode.document editor))]> (run calls))
        (Some editor1)
    ∧ cursorRedo (Some editor1)
        (<[getDocumentId (vscode.document editor) :=
             undone h item (vscode.selections editor)
               (vscode.version (vscode.document editor))]> (run calls))
      = mkOutcome Returned (<[getDocumentId (vscode.document editor) := h2]> (run calls))
          (Some editor2)
    ∧ vscode.document editor2 = vscode.document editor
    ∧ vscode.selections editor2 = selections item'
    ∧ Forall2 sameEnds (vscode.selections editor) (selections item')
    ∧ last (dedupPush (redoStack h) (vscode.selections editor)) = Some item'
    ∧ undoStack h2 = undoStack h
    ∧ redoStack h2 = removelast (dedupPush (redoStack h) (vscode.selections editor))
    ∧ undoRedoCounter h2 = (undoRedoCounter h + 2)%Z.
Proof.
  intros Hh Hlast Hne Hlive.
  destruct (cursorUndo_succeeds _ editor now h item Hh Hlast Hne)
    as (editor1 & Hrun1 & Hsels1 & Hfrom1).
  pose proof (revealedFrom_document _ _ _ Hfrom1) as Hdoc1.
  destruct (last_dedupPush (redoStack h) (vscode.selections editor))
    as (item' & Hlast' & Hsame & _).
  assert (Hne' : selections item' ≠ []).
  { intros E. rewrite E in Hsame. apply Forall2_nil_inv_r in Hsame. contradiction. }
  set (h1 := undone h item (vscode.selections editor)
               (vscode.version (vscode.document editor))) in *.
  destruct (cursorRedo_succeeds
              (<[getDocumentId (vscode.document editor) := h1]> (run calls))
              editor1 h1 item')
    as (editor2 & Hrun2 & Hsels2 & Hfrom2).
  { rewrite Hdoc1. apply lookup_insert_eq. }
  { exact Hlast'. }
  { exact Hne'. }
  rewrite Hdoc1, insert_insert_eq in Hrun2.
  exists editor1, editor2, item'. eexists.
  split; [exact Hrun1|]. split; [exact Hrun2|].
  split; [rewrite (revealedFrom_document _ _ _ Hfrom2); exact Hdoc1|].
  split; [exact Hsels2|]. split; [exact Hsame|]. split; [exact Hlast'|].
  simpl. rewrite Hsels1. split; [|split; [reflexivity|lia]].
  destruct (map_Forall_lookup_1 _ _ _ _ (run_wellFormed calls) Hh) as [_ Hnr].
  apply dedupPush_removelast; assumption.
Qed.

(** X11. In a reachable table, an undo followed by a redo returns the
    editor to selections with the ends of those it showed before the undo,
    and to those very selections when the undo pushed them onto the redo
    stack; the undo stack is again what it was, and the counter is two
    more. *)
Theorem undo_then_redo_round_trip
    (calls : list Call) (editor : vscode.TextEditor) (now : Z)
    (h : DocumentHistory) (item : UndoItem) :
  run calls !! getDocumentId (vscode.document editor) = Some h →
  last (undoStack h) = Some item →
  selections item ≠ [] →
  vscode.selections editor ≠ [] →
  let out1 := cursorUndo (Some editor) now (run calls) in
  let out2 := cursorRedo (activeTextEditor out1) (documentsHistory out1) in
  ∃ editor2 h2,
    completion out1 = Returned
    ∧ completion out2 = Returned
    ∧ activeTextEditor out2 = Some editor2
    ∧ documentsHistory out2 !! getDocumentId (vscode.document editor) = Some h2
    ∧ Forall2 sameEnds (vscode.selections editor) (vscode.selections editor2)
    ∧ undoStack h2 = undoStack h
    ∧ undoRedoCounter h2 = (undoRedoCounter h + 2)%Z
    ∧ ((¬ ∃ top, last (redoStack h) = Some top
                 ∧ Forall2 sameEnds (vscode.selections editor) (selections top)) →
       vscode.selections editor2 = vscode.selections editor
       ∧ redoStack h2 = redoStack h).
Proof.
  intros Hh Hlast Hne Hlive.
  destruct (undo_then_redo calls editor now h item Hh Hlast Hne Hlive)
    as (editor1 & editor2 & item' & h2 & Hrun1 & Hrun2 & Hdoc2 & Hsels2 & Hsame & Hlast'
        & Hundo & Hredo & Hcount).
  cbv zeta. rewrite Hrun1. cbn [activeTextEditor documentsHistory completion].
  rewrite Hrun2. cbn [activeTextEditor documentsHistory completion].
  exists editor2, h2. split; [reflexivity|]. split; [reflexivity|]. split; [reflexivity|].
  split; [apply lookup_insert_eq|]. split; [rewrite Hsels2; exact Hsame|].
  split; [exact Hundo|]. split; [exact Hcount|].
  intros Hnew.
  destruct (dedupPush_cases (redoStack h) (vscode.selections editor))
    as [[_ Htop]|[Hpush _]]; [contradiction|].
  rewrite Hpush in Hlast', Hredo. rewrite last_snoc in Hlast'. injection Hlast' as <-.
  rewrite removelast_last in Hredo. split; [exact Hsels2 | exact Hredo].
Qed.

Lemma undo_then_redo_round_trip_witness :
  ∃ editor2,
    activeTextEditor
      (cursorRedo
         (activeTextEditor (cursorUndo (Some (editorWith [cursorAt 5 0])) 20 (run movedCalls)))
         (documentsHistory (cursorUndo (Some (editorWith [cursorAt 5 0])) 20 (run movedCalls))))
    = Some editor2
    ∧ vscode.selections editor2 = [cursorAt 5 0].
Proof.
  edestruct (undo_then_redo_round_trip movedCalls (editorWith [cursorAt 5 0]) 20)
    as (editor2 & h2 & _ & _ & Hed & _ & _ & _ & _ & Hexact).
  - vm_compute. reflexivity.
  - vm_compute. reflexivity.
  - discriminate.
  - discriminate.
  - exists editor2. split; [exact Hed|]. apply Hexact.
    intros (top & Htop & _). vm_compute in Htop. discriminate.
Defined.

(** X12. In a reachable table, an undo, the redo that follows it and the
    undo that follows that one leave the editor showing exactly the
    selections the first undo restored, and the undo stack as the first
    undo left it. *)
Theorem undo_redo_undo_restores_first_undo
    (calls : list Call) (editor : vscode.TextEditor) (now now' : Z)
    (h : DocumentHistory) (item : UndoItem) :
  run calls !! getDocumentId (vscode.document editor) = Some h →
  last (undoStack h) = Some item →
  selections item ≠ [] →
  vscode.selections editor ≠ [] →
  let out1 := cursorUndo (Some editor) now (run calls) in
  let out2 := cursorRedo (activeTextEditor out1) (documentsHistory out1) in
  let out3 := cursorUndo (activeTextEditor out2) now' (documentsHistory out2) in
  ∃ editor1 editor3 h1 h3,
    activeTextEditor out1 = Some editor1
    ∧ documentsHistory out1 !! getDocumentId (vscode.document editor) = Some h1
    ∧ completion out3 = Returned
    ∧ activeTextEditor out3 = Some editor3
    ∧ documentsHistory out3 !! getDocumentId (vscode.document editor) = Some h3
    ∧ vscode.selections editor1 = selections item
    ∧ vscode.selections editor3 = vscode.selections editor1
    ∧ undoStack h3 = undoStack h1.
Proof.
  intros Hh Hlast Hne Hlive.
  destruct (undo_then_redo calls editor now h item Hh Hlast Hne Hlive)
    as (editor1 & editor2 & item' & h2 & Hrun1 & Hrun2 & Hdoc2 & Hsels2 & Hsame & Hlast'
        & Hundo & Hredo & Hcount).
  destruct (cursorUndo_succeeds _ editor now h item Hh Hlast Hne)
    as (editor1' & Hrun1' & Hsels1 & _).
  rewrite Hrun1 in Hrun1'. injection Hrun1' as <-.
  destruct (cursorUndo_succeeds
              (<[getDocumentId (vscode.document editor) := h2]> (run calls))
              editor2 now' h2 item)
    as (editor3 & Hrun3 & Hsels3 & _).
  { rewrite Hdoc2. apply lookup_insert_eq. }
  { rewrite Hundo. exact Hlast. }
  { exact Hne. }
  rewrite Hdoc2, insert_insert_eq in Hrun3.
  cbv zeta. rewrite Hrun1. cbn [activeTextEditor documentsHistory completion].
  rewrite Hrun2. cbn [activeTextEditor documentsHistory completion].
  rewrite Hrun3. cbn [activeTextEditor documentsHistory completion].
  exists editor1, editor3. do 2 eexists.
  split; [reflexivity|]. split; [apply lookup_insert_eq|]. split; [reflexivity|].
  split; [reflexivity|]. split; [apply lookup_insert_eq|].
  split; [exact Hsels1|]. split; [congruence|]. simpl. rewrite Hundo. reflexivity.
Qed.

Lemma undo_redo_undo_restores_first_undo_witness :
  let out1 := cursorUndo (Some (editorWith [cursorAt 5 0])) 20 (run movedCalls) in
  let out2 := cursorRedo (activeTextEditor out1) (documentsHistory out1) in
  let out3 := cursorUndo (activeTextEditor out2) 30 (documentsHistory out2) in
  ∃ editor3, activeTextEditor out3 = Some editor3
             ∧ vscode.selections editor3 = [cursorAt 0 0].
Proof.
  edestruct (undo_redo_undo_restores_first_undo movedCalls (editorWith [cursorAt 5 0]) 20 30)
    as (editor1 & editor3 & h1 & h3 & _ & _ & _ & Hed3 & _ & Hsels1 & Hsels3 & _).
  - vm_compute. reflexivity.
  - vm_compute. reflexivity.
  - discriminate.
  - discriminate.
  - exists editor3. split; [exact Hed3|]. rewrite Hsels3, Hsels1. reflexivity.
Defined.

(** ** A committed change can be undone *)

Lemma last_trim (stack : list UndoItem) (x : UndoItem) :
  last stack = Some x → last (trim stack) = Some x.
Proof.
  intros Hlast. unfold trim.
  destruct (Nat.ltb_spec MAX_STACK_SIZE (length stack)) as [Hlong|_]; [|exact Hlast].
  destruct stack as [|a rest]; [discriminate|]. simpl.
  rewrite last_cons in Hlast. destruct (last rest) eqn:E; [exact Hlast|].
  apply last_None in E. subst rest. simpl in Hlong. unfold MAX_STACK_SIZE in Hlong. lia.
Qed.

(** X13. After an unsuppressed event that is due to commit, on a window
    whose last list is not empty, an undo returns normally and the editor
    shows selections with the ends of the window's last list before the
    event, and that very list when its push was not skipped: the change the
    event reported can be undone. *)
Theorem committed_change_can_be_undone
    (table : gmap string DocumentHistory) (e : vscode.TextEditorSelectionChangeEvent)
    (timestamp : Z) (h : DocumentHistory) (editor : vscode.TextEditor) (now : Z) :
  table !! eventDocumentId e = Some h →
  (undoRedoCounter h ≤ 0)%Z →
  ((timestamp - lastSelectionsTimestamp h > 4000)%Z
   ∨ isLastSelectionsChangeSignificant (selectionsHistory h)
       (vscode.event_selections e) (eventVersion e) = Some true) →
  lastSelections (selectionsHistory h) ≠ [] →
  getDocumentId (vscode.document editor) = eventDocumentId e →
  let out := cursorUndo (Some editor) now (handleSelectionChange e timestamp table).2 in
  ∃ editor',
    completion out = Returned
    ∧ activeTextEditor out = Some editor'
    ∧ Forall2 sameEnds (lastSelections (selectionsHistory h)) (vscode.selections editor')
    ∧ ((¬ ∃ top, last (undoStack h) = Some top
                 ∧ Forall2 sameEnds (lastSelections (selectionsHistory h)) (selections top)) →
       vscode.selections editor' = lastSelections (selectionsHistory h)).
Proof.
  intros Hh Hc Hdue Hne Hid.
  destruct (handleSelectionChange_unsuppressed table e timestamp h Hh Hc)
    as (sig & Hsig & Hrun).
  assert (Hcommit : (timestamp - lastSelectionsTimestamp h >? FOUR_SECONDS)%Z || sig = true).
  { apply orb_true_iff. destruct Hdue as [Ht|Hs].
    - left. unfold FOUR_SECONDS. apply Z.gtb_lt. lia.
    - right. congruence. }
  rewrite Hcommit in Hrun. cbv zeta. rewrite Hrun. cbn [snd].
  destruct (last_dedupPush (undoStack h) (lastSelections (selectionsHistory h)))
    as (top & Htop & Hsame & Hexact).
  assert (Hne' : selections top ≠ []).
  { intros E. rewrite E in Hsame. apply Forall2_nil_inv_r in Hsame. contradiction. }
  edestruct (cursorUndo_succeeds
               (<[eventDocumentId e :=
                    recorded h (vscode.event_selections e) (eventVersion e) timestamp true]>
                  table) editor now) as (editor' & Hundo & Hsels & _).
  { rewrite Hid. apply lookup_insert_eq. }
  { simpl. apply last_trim. exact Htop. }
  { exact Hne'. }
  rewrite Hundo. cbn [completion activeTextEditor].
  exists editor'. split; [reflexivity|]. split; [reflexivity|].
  rewrite Hsels. split; [exact Hsame|].
  intros Hnew.
  destruct (dedupPush_cases (undoStack h) (lastSelections (selectionsHistory h)))
    as [[_ Hskip]|[Hpush _]]; [contradiction|].
  rewrite (Hexact Hpush). reflexivity.
Qed.

Lemma committed_change_can_be_undone_witness :
  ∃ editor',
    activeTextEditor
      (cursorUndo (Some (editorWith [cursorAt 5 0])) 20
         (handleSelectionChange (eventWith [cursorAt 5 0]) 10 openedTable).2)
    = Some editor'
    ∧ vscode.selections editor' = [cursorAt 0 0].
Proof.
  edestruct (committed_change_can_be_undone openedTable (eventWith [cursorAt 5 0]) 10
               (getInitialDocumentHistory (editorWith [cursorAt 0 0]) 0)
               (editorWith [cursorAt 5 0]) 20)
    as (editor' & _ & Hed & _ & Hexact).
  - vm_compute. reflexivity.
  - simpl. lia.
  - right. vm_compute. reflexivity.
  - discriminate.
  - reflexivity.
  - exists editor'. split; [exact Hed|]. apply Hexact.
    intros (top & Htop & _). discriminate Htop.
Defined.

(** X14. An undo absorbs its own notification: after an undo that restored
    an entry, on a history whose counter was not negative, the next
    selection-change event on the document returns normally and only puts
    the counter back to what it was before the undo; the stacks, the window
    and the timestamp stay as the undo left them. *)
Theorem undo_absorbs_next_event
    (table : gmap string DocumentHistory) (editor : vscode.TextEditor) (now : Z)
    (e : vscode.TextEditorSelectionChangeEvent) (timestamp : Z)
    (h : DocumentHistory) (item : UndoItem) :
  table !! getDocumentId (vscode.document editor) = Some h →
  last (undoStack h) = Some item →
  selections item ≠ [] →
  (0 ≤ undoRedoCounter h)%Z →
  eventDocumentId e = getDocumentId (vscode.document editor) →
  let table1 := documentsHistory (cursorUndo (Some editor) now table) in
  ∃ h1 h2,
    table1 !! eventDocumentId e = Some h1
    ∧ handleSelectionChange e timestamp table1 = (Returned, <[eventDocumentId e := h2]> table1)
    ∧ undoRedoCounter h2 = undoRedoCounter h
    ∧ undoStack h2 = undoStack h1
    ∧ redoStack h2 = redoStack h1
    ∧ selectionsHistory h2 = selectionsHistory h1
    ∧ lastSelectionsTimestamp h2 = lastSelectionsTimestamp h1.
Proof.
  intros Hh Hlast Hne Hc He.
  destruct (cursorUndo_succeeds table editor now h item Hh Hlast Hne)
    as (editor' & Hrun & _).
  cbv zeta. rewrite Hrun. cbn [documentsHistory]. rewrite He.
  eexists. eexists. split; [apply lookup_insert_eq|]. split.
  - rewrite <- He. apply handleSelectionChange_suppressed.
    + rewrite He. apply lookup_insert_eq.
    + simpl. lia.
  - simpl. repeat split. lia.
Qed.

Lemma undo_absorbs_next_event_witness :
  ∃ h2,
    handleSelectionChange (eventWith [cursorAt 0 0]) 30 undoneTable
    = (Returned, <["file:///sample.txt" := h2]> undoneTable)
    ∧ undoRedoCounter h2 = 0%Z.
Proof.
  edestruct (undo_absorbs_next_event (run movedCalls) (editorWith [cursorAt 5 0]) 20
               (eventWith [cursorAt 0 0]) 30)
    as (h1 & h2 & _ & Hrun & Hcount & _).
  - vm_compute. reflexivity.
  - vm_compute. reflexivity.
  - discriminate.
  - simpl. lia.
  - reflexivity.
  - exists h2. split; [exact Hrun | exact Hcount].
Defined.

(** ** The same snapshot delivered many times *)

Lemma repeating_recorded
    (e : vscode.TextEditorSelectionChangeEvent) (n : nat) (h : DocumentHistory)
    (now : Z) (commit : bool) :
  repeating e n h →
  repeating e n (recorded h (vscode.event_selections e) (eventVersion e) now commit).
Proof.
  intros (Hlast & Hc & Hlen). split; [reflexivity|]. split; [exact Hc|].
  destruct commit; simpl; [|exact Hlen]. rewrite Hlast.
  pose proof (length_trim_le (dedupPush (undoStack h) (vscode.event_selections e))) as Htrim.
  destruct (dedupPush_cases (undoStack h) (vscode.event_selections e))
    as [[Hskip (top & Htop & Hsame)]|[Hpush Hno]]; rewrite ?Hskip, ?Hpush in *.
  - destruct Hlen as [Hlen|[Hlen _]].
    + left. lia.
    + right. split; [lia|]. exists top. split; [apply last_trim; exact Htop | exact Hsame].
  - destruct Hlen as [Hlen|[_ Htop]]; [|contradiction].
    right. rewrite length_app in Htrim. simpl in Htrim. split; [lia|].
    exists (mkUndoItem (vscode.event_selections e)).
    split; [apply last_trim, last_snoc | apply sameEnds_refl].
Qed.

Lemma deliverSame_repeating
    (e : vscode.TextEditorSelectionChangeEvent) (n : nat) (times : list Z) :
  ∀ (table : gmap string DocumentHistory) (h : DocumentHistory),
    table !! eventDocumentId e = Some h →
    repeating e n h →
    ∃ h', deliverSame e times table !! eventDocumentId e = Some h' ∧ repeating e n h'.
Proof.
  induction times as [|t times IH]; intros table h Hh Hrep; [eauto|].
  unfold deliverSame, deliver. simpl.
  destruct Hrep as (Hlast & Hc & Hlen).
  destruct (handleSelectionChange_unsuppressed table e t h Hh Hc) as (sig & _ & ->).
  simpl. eapply IH; [apply lookup_insert_eq|].
  apply repeating_recorded. repeat split; assumption.
Qed.

(** X15. However many times in a row, and at whatever times, the same
    unsuppressed snapshot is delivered, the undo stack grows by at most two
    entries in all: once the snapshot is on top of the stack its push is
    skipped. *)
Theorem repeated_snapshot_grows_stack_by_at_most_two
    (table : gmap string DocumentHistory) (e : vscode.TextEditorSelectionChangeEvent)
    (times : list Z) (h : DocumentHistory) :
  table !! eventDocumentId e = Some h →
  (undoRedoCounter h ≤ 0)%Z →
  ∃ h', deliverSame e times table !! eventDocumentId e = Some h'
        ∧ length (undoStack h') ≤ length (undoStack h) + 2.
Proof.
  intros Hh Hc. destruct times as [|t times].
  - exists h. split; [exact Hh | lia].
  - unfold deliverSame, deliver. simpl.
    destruct (handleSelectionChange_unsuppressed table e t h Hh Hc) as (sig & _ & ->).
    simpl.
    destruct (deliverSame_repeating e (length (undoStack h)) times
                (<[eventDocumentId e :=
                     recorded h (vscode.event_selections e) (eventVersion e) t
                       ((t - lastSelectionsTimestamp h >? FOUR_SECONDS)%Z || sig)]> table)
                (recorded h (vscode.event_selections e) (eventVersion e) t
                   ((t - lastSelectionsTimestamp h >? FOUR_SECONDS)%Z || sig)))
      as (h' & Hh' & _ & _ & Hlen).
    + apply lookup_insert_eq.
    + split; [reflexivity|]. split; [exact Hc|]. left.
      apply length_recorded_undoStack.
    + exists h'. split; [exact Hh'|]. destruct Hlen as [Hlen|[Hlen _]]; lia.
Qed.

Lemma repeated_snapshot_grows_stack_by_at_most_two_witness :
  ∃ h', deliverSame (eventWith [cursorAt 5 0]) [10; 20; 5000; 10000; 20000]%Z openedTable
          !! "file:///sample.txt" = Some h'
        ∧ length (undoStack h') ≤ 2.
Proof.
  apply (repeated_snapshot_grows_stack_by_at_most_two openedTable (eventWith [cursorAt 5 0])
           [10; 20; 5000; 10000; 20000]%Z
           (getInitialDocumentHistory (editorWith [cursorAt 0 0]) 0)).
  - vm_compute. reflexivity.
  - simpl. lia.
Defined.

(** ** Equality of selection lists *)

(** X16. [areSelectionsEqual] never throws: on any two lists it returns a
    boolean, which is [true] exactly when the lists have the same length
    and, index by index, selections with the same start and the same end.
    It is an equivalence: every list equals itself, the order of the two
    lists does not matter, and two lists equal to a third are equal. *)
Theorem areSelectionsEqual_is_an_equivalence (l1 l2 l3 : list vscode.Selection) :
  (areSelectionsEqual l1 l2 = Some true ∨ areSelectionsEqual l1 l2 = Some false)
  ∧ (areSelectionsEqual l1 l2 = Some true
     ↔ length l1 = length l2
       ∧ ∀ i a b, l1 !! i = Some a → l2 !! i = Some b →
                  Selection_start a = Selection_start b ∧ Selection_end a = Selection_end b)
  ∧ areSelectionsEqual l1 l1 = Some true
  ∧ areSelectionsEqual l1 l2 = areSelectionsEqual l2 l1
  ∧ (areSelectionsEqual l1 l2 = Some true → areSelectionsEqual l2 l3 = Some true →
     areSelectionsEqual l1 l3 = Some true).
Proof.
  rewrite !areSelectionsEqual_spec. split; [|split; [|split; [|split]]].
  - destruct (bool_decide _); auto.
  - rewrite <- (Forall2_same_length_lookup sameEnds l1 l2). split.
    + intros [= H]. apply bool_decide_eq_true in H. exact H.
    + intros H. f_equal. apply bool_decide_eq_true. exact H.
  - f_equal. apply bool_decide_eq_true. apply sameEnds_refl.
  - f_equal. apply bool_decide_ext. split; apply sameEnds_sym.
  - intros [= H12] [= H23]. f_equal.
    apply bool_decide_eq_true in H12, H23. apply bool_decide_eq_true.
    eapply sameEnds_trans; eassumption.
Qed.

(** ** Cursors that stay on their lines *)

(** X17. When the three snapshots have the same number of selections, every
    selection is a bare cursor and no cursor has left its line, the change
    is significant exactly when editing has just started or has just
    stopped: when exactly one of the two version steps is a change. *)
Theorem cursors_on_their_lines_significant_iff_editing_toggles
    (w : SelectionsHistory) (cur : list vscode.Selection) (curVer : Z) :
  length cur = length (lastSelections w) →
  length (lastSelections w) = length (previousOfLastSelections w) →
  (∀ s, s ∈ cur ++ lastSelections w ++ previousOfLastSelections w →
        vscode.anchor s = vscode.active s) →
  (∀ i c l, cur !! i = Some c → lastSelections w !! i = Some l →
            vscode.line (vscode.active c) = vscode.line (vscode.active l)) →
  (∀ i l p, lastSelections w !! i = Some l → previousOfLastSelections w !! i = Some p →
            vscode.line (vscode.active l) = vscode.line (vscode.active p)) →
  isLastSelectionsChangeSignificant w cur curVer =
  Some (xorb (previousOfLastDocumentVersion w =? lastDocumentVersion w)%Z
             (lastDocumentVersion w =? curVer)%Z).
Proof.
  intros Hcl Hlp Hbare Hcur Hlast.
  destruct (isLastSelectionsChangeSignificant_cases w cur curVer) as (b & -> & Hrules).
  f_equal. apply eq_true_iff_eq. rewrite Hrules.
  unfold anyRule, rule1, rule2, rule3, rule4, rule5, rule6, rule7.
  assert (Hx : xorb (previousOfLastDocumentVersion w =? lastDocumentVersion w)%Z
                 (lastDocumentVersion w =? curVer)%Z = true
               ↔ (previousOfLastDocumentVersion w = lastDocumentVersion w
                  ∧ lastDocumentVersion w ≠ curVer)
                 ∨ (previousOfLastDocumentVersion w ≠ lastDocumentVersion w
                    ∧ lastDocumentVersion w = curVer)).
  { destruct (Z.eqb_spec (previousOfLastDocumentVersion w) (lastDocumentVersion w)),
             (Z.eqb_spec (lastDocumentVersion w) curVer); simpl; intuition congruence. }
  rewrite Hx. split; [|tauto].
  intros [H|[H|[H|[H|[H|H]]]]]; try contradiction; try tauto.
  - destruct H as (i & c & l & Hc & Hl & Hne). exfalso. apply Hne.
    assert (vscode.anchor c = vscode.active c).
    { apply Hbare. apply elem_of_app. left. eapply list_elem_of_lookup_2. exact Hc. }
    assert (vscode.anchor l = vscode.active l).
    { apply Hbare. apply elem_of_app. right. apply elem_of_app. left.
      eapply list_elem_of_lookup_2. exact Hl. }
    tauto.
  - destruct H as (i & c & l & Hc & Hl & Hne & _). exfalso. apply Hne.
    apply Hbare. apply elem_of_app. left. eapply list_elem_of_lookup_2. exact Hc.
  - destruct H as (i & c & l & p & Hc & Hl & Hp & Hd). exfalso.
    pose proof (Hcur i c l Hc Hl). pose proof (Hlast i l p Hl Hp). simpl in Hd. lia.
Qed.

Lemma cursors_on_their_lines_significant_iff_editing_toggles_witness :
  isLastSelectionsChangeSignificant
    (mkSelectionsHistory [cursorAt 0 1] 3 [cursorAt 0 2] 4) [cursorAt 0 3] 5
  = Some false
  ∧ isLastSelectionsChangeSignificant
      (mkSelectionsHistory [cursorAt 0 1] 3 [cursorAt 0 2] 4) [cursorAt 0 3] 4
    = Some true.
Proof.
  split.
  - apply (cursors_on_their_lines_significant_iff_editing_toggles
             (mkSelectionsHistory [cursorAt 0 1] 3 [cursorAt 0 2] 4) [cursorAt 0 3] 5);
      try reflexivity.
    + intros s Hs. simpl in Hs. repeat (apply elem_of_cons in Hs; destruct Hs as [->|Hs];
        [reflexivity|]). apply elem_of_nil in Hs. contradiction.
    + intros [|i] c l; simpl; [intros [= <-] [= <-]; reflexivity | discriminate].
    + intros [|i] l p; simpl; [intros [= <-] [= <-]; reflexivity | discriminate].
  - apply (cursors_on_their_lines_significant_iff_editing_toggles
             (mkSelectionsHistory [cursorAt 0 1] 3 [cursorAt 0 2] 4) [cursorAt 0 3] 4);
      try reflexivity.
    + intros s Hs. simpl in Hs. repeat (apply elem_of_cons in Hs; destruct Hs as [->|Hs];
        [reflexivity|]). apply elem_of_nil in Hs. contradiction.
    + intros [|i] c l; simpl; [intros [= <-] [= <-]; reflexivity | discriminate].
    + intros [|i] l p; simpl; [intros [= <-] [= <-]; reflexivity | discriminate].
Defined.

(** ** The log of a stack *)

Lemma stackText_None (item : UndoItem) :
  stackText item = None ↔ selections item = [].
Proof.
  unfold stackText. destruct (selections item) as [|s [|s' rest]]; simpl.
  - split; reflexivity.
  - split; discriminate.
  - split; discriminate.
Qed.

(** X18. [getStackLog] throws exactly when some entry of the stack has an
    empty selection list, since it reads the active position of the first
    selection of an entry with at most one; the log of the empty stack is
    the empty string. *)
Theorem getStackLog_throws_iff_some_entry_is_empty (stack : list UndoItem) :
  (getStackLog stack = None ↔ Exists (λ item, selections item = []) stack)
  ∧ getStackLog [] = Some "".
Proof.
  split; [|reflexivity]. unfold getStackLog.
  induction stack as [|item stack IH].
  - simpl. split; [discriminate|]. intros H. inversion H.
  - rewrite Exists_cons. rewrite <- IH, <- stackText_None. simpl.
    destruct (stackText item) as [text|]; simpl; [|tauto].
    destruct (mapM stackText stack) as [texts|]; simpl.
    + split; [discriminate|]. intros [H|H]; discriminate.
    + tauto.
Qed.

(** The log of two entries, one with a single cursor and one with two. *)
Lemma getStackLog_sample :
  getStackLog [mkUndoItem [cursorAt 4 1];
               mkUndoItem [cursorAt 4 1; cursorAt 5 1]]
  = Some "(4, 1) => [(4, 1), (5, 1)]".
Proof. vm_compute. reflexivity. Qed.

(** ** The nearly visible range and the distance in lines *)

Lemma Range_contains_lines (r : vscode.Range) (p : vscode.Position) :
  vscode.Range_contains r p = true →
  (vscode.line (vscode.range_start r) ≤ vscode.line p ≤ vscode.line (vscode.range_end r))%Z.
Proof.
  unfold vscode.Range_contains, vscode.Position_isBefore.
  repeat match goal with
         | |- context [(?a <? ?b)%Z] => destruct (Z.ltb_spec a b)
         end; intros Hcontains; try discriminate Hcontains; lia.
Qed.

Lemma validatePosition_cases (d : vscode.TextDocument) (p : vscode.Position) :
  vscode.lineLengths d ≠ [] → (0 ≤ vscode.line p)%Z →
  (is_Some (vscode.lineLengths d !! Z.to_nat (vscode.line p))
   ∧ vscode.line (vscode.validatePosition d p) = vscode.line p)
  ∨ (vscode.lineLengths d !! Z.to_nat (vscode.line p) = None
     ∧ vscode.validatePosition d p
       = vscode.mkPosition (Z.of_nat (length (vscode.lineLengths d) - 1))
           (default 0%Z (vscode.lineLengths d !! (length (vscode.lineLengths d) - 1)%nat))).
Proof.
  intros Hne Hline. unfold vscode.validatePosition.
  destruct (vscode.lineLengths d) as [|x rest] eqn:E; [contradiction|]. rewrite <- E.
  destruct (Z.ltb_spec (vscode.line p) 0); [lia|].
  destruct (vscode.lineLengths d !! Z.to_nat (vscode.line p)) as [m|] eqn:Hm.
  - left. split; [eauto|].
    destruct (_ <? _)%Z; [reflexivity|]. destruct (_ <? _)%Z; reflexivity.
  - right. split; reflexivity.
Qed.

Lemma validIn_facts (d : vscode.TextDocument) (p : vscode.Position) :
  validIn d p →
  vscode.lineLengths d ≠ []
  ∧ (0 ≤ vscode.line p)%Z
  ∧ (vscode.line p ≤ Z.of_nat (length (vscode.lineLengths d) - 1))%Z.
Proof.
  intros (len & Hlen & Hline & _). pose proof (lookup_lt_Some _ _ _ Hlen) as Hlt.
  split; [|split; [exact Hline|lia]].
  intros E. rewrite E in Hlen. rewrite lookup_nil in Hlen. discriminate.
Qed.

(** X19. For a visible range and an active position that the document
    holds, the range running over lines in order, the nearly visible test
    agrees with the distance in lines except on the two outermost lines of
    the margin: it succeeds only for a position on a line from fifteen above
    the range's first line (or line 0) to fifteen below its last, and it
    does succeed for every position strictly between those two lines. *)
Theorem nearly_visible_agrees_with_lines_inside_margin
    (editor : vscode.TextEditor) (r : vscode.Range) (sel : vscode.Selection) :
  vscode.selection editor = Some sel →
  validIn (vscode.document editor) (vscode.range_start r) →
  validIn (vscode.document editor) (vscode.range_end r) →
  validIn (vscode.document editor) (vscode.active sel) →
  (vscode.line (vscode.range_start r) ≤ vscode.line (vscode.range_end r))%Z →
  (isCursorNearlyVisibleInRange r editor = Some true →
   (Z.max (vscode.line (vscode.range_start r) - 15) 0 ≤ vscode.line (vscode.active sel)
    ∧ vscode.line (vscode.active sel) ≤ vscode.line (vscode.range_end r) + 15)%Z)
  ∧ ((Z.max (vscode.line (vscode.range_start r) - 15) 0 < vscode.line (vscode.active sel)
      ∧ vscode.line (vscode.active sel) < vscode.line (vscode.range_end r) + 15)%Z →
     isCursorNearlyVisibleInRange r editor = Some true).
Proof.
  intros Hsel Hs He Hp Hlines.
  destruct (validIn_facts _ _ Hs) as (Hne & Hs0 & Hslast).
  destruct (validIn_facts _ _ He) as (_ & He0 & Helast).
  destruct (validIn_facts _ _ Hp) as (_ & Hp0 & Hplast).
  unfold isCursorNearlyVisibleInRange, NEARLY_VISIBLE_LINES. rewrite Hsel. simpl.
  set (d := vscode.document editor) in *.
  set (s := vscode.range_start r) in *. set (e := vscode.range_end r) in *.
  set (p := vscode.active sel) in *.
  assert (Hlen1 : 1 ≤ length (vscode.lineLengths d)).
  { destruct (vscode.lineLengths d); [contradiction|simpl; lia]. }
  remember (Z.max (vscode.line s - 15) 0) as L eqn:HL.
  set (start' := vscode.Position_with s L).
  set (end' := vscode.Position_with e (vscode.line e + 15)).
  assert (Hord : vscode.new_Range start' end' = vscode.mkRange start' end').
  { unfold vscode.new_Range, vscode.Position_isBefore. simpl.
    destruct (Z.ltb_spec L (vscode.line e + 15)); [reflexivity|lia]. }
  rewrite Hord. unfold vscode.validateRange. simpl.
  set (s2 := vscode.validatePosition d start'). set (e2 := vscode.validatePosition d end').
  assert (Hs2 : vscode.line s2 = L).
  { destruct (validatePosition_cases d start' Hne) as [[_ H]|[Hnone _]].
    - simpl. lia.
    - exact H.
    - exfalso. simpl in Hnone. apply lookup_ge_None in Hnone. lia. }
  assert (He2 : (L ≤ vscode.line e2 ≤ vscode.line e + 15)%Z
                ∧ ((vscode.line p < vscode.line e + 15)%Z →
                   vscode.Position_isBefore e2 p = false)).
  { destruct (validatePosition_cases d end' Hne) as [[_ H]|[Hnone H]].
    - simpl. lia.
    - fold e2 in H. simpl in H. rewrite H. split; [lia|].
      intros Hlt. unfold vscode.Position_isBefore. rewrite H.
      destruct (Z.ltb_spec (vscode.line e + 15) (vscode.line p)); [lia|].
      destruct (Z.ltb_spec (vscode.line p) (vscode.line e + 15)); [reflexivity|lia].
    - fold e2 in H. rewrite H. simpl. simpl in Hnone. apply lookup_ge_None in Hnone.
      split; [lia|]. intros _. unfold vscode.Position_isBefore. simpl.
      destruct (Z.ltb_spec (Z.of_nat (length (vscode.lineLengths d) - 1)) (vscode.line p));
        [lia|].
      destruct (Z.ltb_spec (vscode.line p) (Z.of_nat (length (vscode.lineLengths d) - 1)));
        [reflexivity|].
      destruct Hp as (len & Hlen & _ & Hch).
      replace (length (vscode.lineLengths d) - 1)%nat with (Z.to_nat (vscode.line p)) by lia.
      rewrite Hlen. simpl. apply Z.ltb_ge. lia. }
  destruct He2 as [He2 Hafter].
  split.
  - intros [= Hcontains].
    destruct (decide _) as [_|_] in Hcontains.
    + apply Range_contains_lines in Hcontains. simpl in Hcontains. lia.
    + unfold vscode.new_Range in Hcontains.
      destruct (vscode.Position_isBefore s2 e2) eqn:Hb;
        apply Range_contains_lines in Hcontains; simpl in Hcontains; lia.
  - intros [Hlow Hhigh]. f_equal.
    assert (Hin : ∀ a b, vscode.line a = L → vscode.Position_isBefore b p = false →
                         vscode.Range_contains (vscode.mkRange a b) p = true).
    { intros a b Ha Hb. unfold vscode.Range_contains. simpl. rewrite Hb.
      unfold vscode.Position_isBefore.
      destruct (Z.ltb_spec (vscode.line p) (vscode.line a)); [lia|].
      destruct (Z.ltb_spec (vscode.line a) (vscode.line p)); [reflexivity|lia]. }
    destruct (decide _) as [[_ Heq]|_].
    + apply Hin; [reflexivity|]. rewrite <- Heq. apply Hafter. exact Hhigh.
    + unfold vscode.new_Range.
      assert (vscode.Position_isBefore s2 e2 = true) as ->.
      { unfold vscode.Position_isBefore.
        destruct (Z.ltb_spec (vscode.line s2) (vscode.line e2)); [reflexivity|].
        exfalso. specialize (Hafter Hhigh). unfold vscode.Position_isBefore in Hafter.
        destruct (Z.ltb_spec (vscode.line e2) (vscode.line p)); [discriminate|]. lia. }
      apply Hin; [exact Hs2|]. apply Hafter. exact Hhigh.
Qed.

Lemma nearly_visible_agrees_with_lines_inside_margin_witness :
  isCursorNearlyVisibleInRange
    (vscode.mkRange (vscode.mkPosition 0 0) (vscode.mkPosition 40 30))
    (editorWith [cursorAt 50 29])
  = Some true.
Proof.
  apply (nearly_visible_agrees_with_lines_inside_margin (editorWith [cursorAt 50 29])
           (vscode.mkRange (vscode.mkPosition 0 0) (vscode.mkPosition 40 30))
           (cursorAt 50 29)).
  - reflexivity.
  - exists 30%Z. simpl. repeat split; lia.
  - exists 30%Z. simpl. repeat split; lia.
  - exists 30%Z. simpl. repeat split; lia.
  - simpl. lia.
  - simpl. lia.
Defined.

(** ** Commands on editors that always show a selection *)

Lemma Forall_removelast {A} (P : A → Prop) (l : list A) :
  Forall P l → Forall P (removelast l).
Proof.
  intros H. destruct (last l) as [x|] eqn:Hlast.
  - rewrite (length_removelast_snoc _ _ Hlast) in H. apply Forall_app in H. apply H.
  - apply last_None in Hlast. subst l. exact H.
Qed.

Lemma Forall_last {A} (P : A → Prop) (l : list A) (x : A) :
  Forall P l → last l = Some x → P x.
Proof.
  intros H Hlast. rewrite (length_removelast_snoc _ _ Hlast) in H.
  apply Forall_app in H. destruct H as [_ H]. rewrite Forall_singleton in H. exact H.
Qed.

Lemma populated_dedupPush (stack : list UndoItem) (sels : list vscode.Selection) :
  Forall (λ item, selections item ≠ []) stack → sels ≠ [] →
  Forall (λ item, selections item ≠ []) (dedupPush stack sels).
Proof.
  intros Hs Hne. destruct (dedupPush_cases stack sels) as [[-> _]|[-> _]]; [exact Hs|].
  apply Forall_app. split; [exact Hs|]. apply Forall_singleton. exact Hne.
Qed.

Lemma populated_trim (stack : list UndoItem) :
  Forall (λ item, selections item ≠ []) stack →
  Forall (λ item, selections item ≠ []) (trim stack).
Proof.
  intros Hs. unfold trim. destruct (_ <? _)%nat; [|exact Hs].
  destruct stack; [exact Hs|]. simpl. apply Forall_cons in Hs. apply Hs.
Qed.

Lemma after_populated (table : gmap string DocumentHistory) (c : Call) :
  showsSelections c →
  map_Forall (λ _, populated) table → map_Forall (λ _, populated) (after table c).
Proof.
  intros Hshows Hinv. destruct c as [[editor|] now|[editor|] now|[editor|]|e timestamp];
    simpl in *; try assumption.
  - unfold initiateUndoHistory. destruct (table !! _); [assumption|].
    apply map_Forall_insert_2; [|assumption].
    repeat split; simpl; [constructor | constructor | exact Hshows].
  - unfold cursorUndo, initiateUndoHistory.
    destruct (table !! getDocumentId (vscode.document editor)) as [h|] eqn:Hh.
    + rewrite Hh.
      destruct (map_Forall_lookup_1 _ _ _ _ Hinv Hh) as (Hu & Hr & Hw).
      destruct (last (undoStack h)) as [item|] eqn:Hlast; [|assumption].
      rewrite pushIntoRedoStack_spec.
      pose proof (Forall_last _ _ _ Hu Hlast) as Hitem.
      destruct (revealActiveCursor _) as [editor'|] eqn:Hrev; simpl;
        apply map_Forall_insert_2; try assumption;
        repeat split; simpl;
        try (apply Forall_removelast; assumption);
        try (apply populated_dedupPush; assumption); try assumption.
      destruct (revealActiveCursor_keeps _ _ Hrev) as (-> & _ & _). exact Hitem.
    + rewrite lookup_insert_eq. simpl.
      apply map_Forall_insert_2; [|assumption].
      repeat split; simpl; [constructor | constructor | exact Hshows].
  - unfold cursorRedo.
    destruct (table !! _) as [h|] eqn:Hh; [|assumption].
    destruct (map_Forall_lookup_1 _ _ _ _ Hinv Hh) as (Hu & Hr & Hw).
    destruct (last (redoStack h)) as [item|] eqn:Hlast; [|assumption].
    rewrite pushIntoUndoStack_spec.
    pose proof (Forall_last _ _ _ Hr Hlast) as Hitem.
    destruct (revealActiveCursor _) as [editor'|] eqn:Hrev; simpl;
      apply map_Forall_insert_2; try assumption;
      repeat split; simpl;
      try (apply Forall_removelast; assumption);
      try (apply populated_dedupPush; assumption); try assumption.
    destruct (revealActiveCursor_keeps _ _ Hrev) as (-> & _ & _). exact Hitem.
  - destruct (table !! eventDocumentId e) as [h|] eqn:Hh.
    + destruct (map_Forall_lookup_1 _ _ _ _ Hinv Hh) as (Hu & Hr & Hw).
      destruct (Z_gt_le_dec (undoRedoCounter h) 0) as [Hc|Hc].
      * rewrite (handleSelectionChange_suppressed table e timestamp h Hh Hc); simpl.
        apply map_Forall_insert_2; [|assumption]. repeat split; assumption.
      * destruct (handleSelectionChange_unsuppressed table e timestamp h Hh Hc)
          as (sig & _ & ->); simpl.
        apply map_Forall_insert_2; [|assumption].
        destruct (_ || _); repeat split; simpl; try assumption; try constructor.
        apply populated_trim, populated_dedupPush; assumption.
    + rewrite (handleSelectionChange_no_history table e timestamp Hh). assumption.
Qed.

Lemma run_populated (calls : list Call) :
  Forall showsSelections calls → map_Forall (λ _, populated) (run calls).
Proof.
  induction calls as [|c calls IH] using rev_ind; intros Hall.
  - apply map_Forall_empty.
  - apply Forall_app in Hall. destruct Hall as [Hall Hc]. rewrite Forall_singleton in Hc.
    rewrite run_snoc. apply after_populated; [exact Hc | apply IH, Hall].
Qed.

Lemma cursorUndo_returns
    (table : gmap string DocumentHistory) (ed : vscode.TextEditor) (now : Z) :
  map_Forall (λ _, populated) table →
  completion (cursorUndo (Some ed) now table) = Returned.
Proof.
  intros Hinv. unfold cursorUndo, initiateUndoHistory.
  destruct (table !! getDocumentId (vscode.document ed)) as [h|] eqn:Hh.
  - rewrite Hh. destruct (map_Forall_lookup_1 _ _ _ _ Hinv Hh) as (Hu & _ & _).
    destruct (last (undoStack h)) as [item|] eqn:Hlast; [|reflexivity].
    rewrite pushIntoRedoStack_spec.
    destruct (revealActiveCursor_returns (vscode.set_selections ed (selections item)))
      as [editor' ->]; [|reflexivity].
    simpl. exact (Forall_last _ _ _ Hu Hlast).
  - rewrite lookup_insert_eq. reflexivity.
Qed.

Lemma cursorRedo_returns
    (table : gmap string DocumentHistory) (ed : vscode.TextEditor) (h : DocumentHistory) :
  map_Forall (λ _, populated) table →
  table !! getDocumentId (vscode.document ed) = Some h →
  completion (cursorRedo (Some ed) table) = Returned.
Proof.
  intros Hinv Hh. unfold cursorRedo. rewrite Hh.
  destruct (map_Forall_lookup_1 _ _ _ _ Hinv Hh) as (_ & Hr & _).
  destruct (last (redoStack h)) as [item|] eqn:Hlast; [|reflexivity].
  rewrite pushIntoUndoStack_spec.
  destruct (revealActiveCursor_returns (vscode.set_selections ed (selections item)))
    as [editor' ->]; [|reflexivity].
  simpl. exact (Forall_last _ _ _ Hr Hlast).
Qed.

(** X20. When every editor and every event the extension has been called
    with showed at least one selection, no stack holds an empty entry, so
    an undo never throws, whatever editor it is given, and a redo throws
    only on a document that has no history. *)
Theorem commands_do_not_throw_when_selections_are_shown
    (calls : list Call) (editor : option vscode.TextEditor) (now : Z) :
  Forall showsSelections calls →
  completion (cursorUndo editor now (run calls)) = Returned
  ∧ (completion (cursorRedo editor (run calls)) = Thrown
     ↔ ∃ ed, editor = Some ed ∧ run calls !! getDocumentId (vscode.document ed) = None).
Proof.
  intros Hall. pose proof (run_populated calls Hall) as Hinv.
  destruct editor as [ed|]; [|split; [reflexivity|]; split;
    [discriminate | intros (ed & [=] & _)]].
  split; [apply cursorUndo_returns; exact Hinv|].
  destruct (run calls !! getDocumentId (vscode.document ed)) as [h|] eqn:Hh.
  - rewrite (cursorRedo_returns _ ed h Hinv Hh). split; [discriminate|].
    intros (ed' & [= <-] & Hnone). congruence.
  - unfold cursorRedo. rewrite Hh. simpl. split; [eauto|reflexivity].
Qed.

Lemma commands_do_not_throw_when_selections_are_shown_witness :
  completion (cursorUndo (Some (editorWith [])) 50 (run movedCalls)) = Returned
  ∧ (undoStack <$> run movedCalls !! "file:///sample.txt")
    = Some [mkUndoItem [cursorAt 0 0]]
  ∧ completion (cursorRedo (Some (editorWith [cursorAt 0 0]))
                  (run (movedCalls ++ [CallCursorUndo (Some (editorWith [cursorAt 5 0])) 20])))
    ≠ Thrown
  ∧ (redoStack <$> run (movedCalls ++ [CallCursorUndo (Some (editorWith [cursorAt 5 0])) 20])
                     !! "file:///sample.txt")
    = Some [mkUndoItem [cursorAt 5 0]].
Proof.
  split; [|split; [vm_compute; reflexivity|split; [|vm_compute; reflexivity]]].
  - apply (commands_do_not_throw_when_selections_are_shown movedCalls
             (Some (editorWith [])) 50).
    repeat constructor; simpl; discriminate.
  - intros Hthrown.
    destruct (commands_do_not_throw_when_selections_are_shown
                (movedCalls ++ [CallCursorUndo (Some (editorWith [cursorAt 5 0])) 20])
                (Some (editorWith [cursorAt 0 0])) 0) as [_ Hredo].
    + repeat constructor; simpl; discriminate.
    + apply Hredo in Hthrown. destruct Hthrown as (ed & [= <-] & Hnone).
      vm_compute in Hnone. discriminate.
Defined.
